(** * Pattern Prophet: the adaptive pattern-puzzle engine

    A shallow embedding of [base-pattern.ts] (the abstract [BasePattern]
    class) and of [visual-sequence-pattern.ts] (its only concrete subclass,
    [VisualSequencePattern]), followed by the properties of the engine.

    Conventions of the embedding.
    - A JavaScript [number] that holds a measured or fractional quantity
      (difficulty, confidence, seconds) is an exact rational [Q]; counts and
      array indices are [Z].  Rounding of IEEE doubles is not modelled,
      except in [Binary64], which accumulates the frustration score in
      binary64 as the code does; statements on rationals are made with the
      slack that survives rounding.
    - An optional field ([shape?: ...]) is an [option]; [undefined] is [None].
    - [this] is an explicit record threaded through a small state monad,
      together with the supply of [Math.random()] results.
    - A [TypeError] raised by reading a property of [undefined] is the
      completion [Thrown]. *)

From Stdlib Require Import String ZArith QArith Qround Qminmax Qabs List Bool Lia Lqa.
From Stdlib Require Import DecimalString.
From Stdlib Require PrimFloat.
Import ListNotations.

Local Open Scope Z_scope.
Local Open Scope Q_scope.

(** ** JavaScript helpers *)

(** [a < b] on numbers, as a boolean. *)
Definition Qltb (a b : Q) : bool := negb (Qle_bool b a).

(** [a >= b] on numbers, as a boolean. *)
Definition Qgeb (a b : Q) : bool := Qle_bool b a.

(** [Array.prototype.slice(-n)]: the last [n] entries, all of them when the
    array is shorter. *)
Definition slice_last {A : Type} (n : nat) (l : list A) : list A :=
  skipn (length l - n) l.

(** [arr[i]] for an integer index: [undefined] out of range. *)
Definition js_index {A : Type} (l : list A) (i : Z) : option A :=
  if (i <? 0)%Z then None else nth_error l (Z.to_nat i).

(** [arr.length] as a number. *)
Definition js_length {A : Type} (l : list A) : Q :=
  inject_Z (Z.of_nat (length l)).

(** The integers [0, 1, ..., n-1] visited by [for (let i = 0; i < n; i++)];
    none when [n <= 0]. *)
Definition upto (n : Z) : list Z :=
  map Z.of_nat (seq 0 (Z.to_nat n)).

(** Template-literal rendering of a non-negative integer. *)
Definition string_of_index (i : Z) : string :=
  NilZero.string_of_uint (Nat.to_uint (Z.to_nat i)).

(** ** Data model ([base-pattern.ts]) *)

Module Position.
Record t := mk { x : Q; y : Q }.
End Position.

(** [VisualElement['properties']]: every field is optional. *)
Module Properties.
Record t := mk {
  shape : option string;
  color : option string;
  size : option Q;
  rotation : option Q;
  strokeWidth : option Q;
  fill : option bool
}.
End Properties.

Module PatternElement.
Record t := mk {
  id : string;
  type : string;
  properties : Properties.t;
  position : option Position.t
}.
End PatternElement.

(** [elements] of a solution: [generateValidSolutions] stores [elements[pos]]
    without a range check, so an entry can be [undefined] ([None]). *)
Module PatternSolution.
Record t := mk {
  elements : list (option PatternElement.t);
  confidence : Q;
  reasoning : option string
}.
End PatternSolution.

Module AccessibilityFeatures.
Record t := mk {
  highContrast : bool;
  reducedMotion : bool;
  audioDescriptions : bool;
  keyboardNavigation : bool
}.
End AccessibilityFeatures.

Module PatternConfig.
Record t := mk {
  patternType : string;
  difficulty : Q;
  elements : list PatternElement.t;
  validSolutions : list PatternSolution.t;
  hints : list string;
  maxAttempts : option Z;
  timeLimit : option Q;
  accessibilityFeatures : AccessibilityFeatures.t
}.
End PatternConfig.

Inductive InteractionPattern : Type :=
  | systematic
  | random
  | exploratory
  | frustrated.

Definition InteractionPattern_eqb (a b : InteractionPattern) : bool :=
  match a, b with
  | systematic, systematic | random, random
  | exploratory, exploratory | frustrated, frustrated => true
  | _, _ => false
  end.

Module PatternAttempt.
Record t := mk {
  id : string;
  timestamp : Z;
  elements : list PatternElement.t;
  isCorrect : bool;
  confidence : Q;
  timeSpent : Q;
  hintsUsed : Z;
  interactionPattern : InteractionPattern
}.
End PatternAttempt.

Module PatternProgress.
Record t := mk {
  userId : string;
  patternType : string;
  currentDifficulty : Q;
  totalAttempts : Z;
  successfulAttempts : Z;
  averageTimeToSolve : Q;
  preferredStrategies : list string;
  lastPlayed : Z;
  masteryLevel : Q
}.
End PatternProgress.

(** ** The abstract base class: shared, non-abstract methods *)

Module BasePattern.
Import PatternAttempt.

(** [private calculateSuccessRate] *)
Definition calculateSuccessRate (attempts : list PatternAttempt.t) : Q :=
  if (length attempts =? 0)%nat then 1 # 2
  else
    let successfulAttempts :=
      filter (fun a => isCorrect a || Qltb (7 # 10) (confidence a)) attempts in
    js_length successfulAttempts / js_length attempts.

(** One iteration of the [forEach] of [calculateFrustrationLevel]. *)
Definition frustrationStep (frustrationScore : Q) (attempt : PatternAttempt.t) : Q :=
  let s1 :=
    if Qltb (timeSpent attempt) 3 && Qltb (confidence attempt) (3 # 10)
    then frustrationScore + (3 # 10) else frustrationScore in
  let s2 :=
    if (hintsUsed attempt >? 2)%Z then s1 + (2 # 10) else s1 in
  if negb (isCorrect attempt) && Qltb (confidence attempt) (1 # 10)
  then s2 + (1 # 10) else s2.

(** [private calculateFrustrationLevel] *)
Definition calculateFrustrationLevel (attempts : list PatternAttempt.t) : Q :=
  if (length attempts =? 0)%nat then 0
  else
    let frustrationScore := fold_left frustrationStep attempts 0 in
    Qmin 1 (frustrationScore / js_length attempts).

(** The decision ladder of [adaptDifficulty], as a function of the two
    statistics its [const]s bind. *)
Definition difficultyLadder
    (currentDifficulty successRate avgFrustration : Q) : Q :=
  let frustrationThreshold := 7 # 10 in
  if Qltb frustrationThreshold avgFrustration then
    Qmax 1 (currentDifficulty - 2)
  else if Qltb (8 # 10) successRate && Qltb avgFrustration (3 # 10) then
    Qmin 10 (currentDifficulty + (1 # 2))
  else if Qltb successRate (4 # 10) then
    Qmax 1 (currentDifficulty - (1 # 2))
  else currentDifficulty.

(** [adaptDifficulty(recentAttempts)] *)
Definition adaptDifficulty (progress : PatternProgress.t)
    (recentAttempts : list PatternAttempt.t) : Q :=
  let successRate := calculateSuccessRate recentAttempts in
  let avgFrustration := calculateFrustrationLevel recentAttempts in
  difficultyLadder (PatternProgress.currentDifficulty progress)
    successRate avgFrustration.

(** [private hasConsistentStrategy] *)
Definition hasConsistentStrategy (attempts : list PatternAttempt.t) : bool :=
  false.

(** [private hasHighVarianceInApproach] *)
Definition hasHighVarianceInApproach (attempts : list PatternAttempt.t) : bool :=
  false.

(** [detectInteractionPattern(attempts)] of the base class. *)
Definition detectInteractionPattern (attempts : list PatternAttempt.t)
    : InteractionPattern :=
  if (length attempts <? 3)%nat then exploratory
  else
    let recentAttempts := slice_last 5 attempts in
    let avgTimePerAttempt :=
      fold_left (fun sum a => sum + timeSpent a) recentAttempts 0
      / js_length recentAttempts in
    let rapidFiring := Qltb avgTimePerAttempt 2 in
    let manyIncorrect :=
      (3 <? length (filter (fun a => negb (isCorrect a)) recentAttempts))%nat in
    if rapidFiring && manyIncorrect then frustrated
    else if hasConsistentStrategy recentAttempts then systematic
    else if hasHighVarianceInApproach recentAttempts then random
    else exploratory.
(** [getConfig()] and [getProgress()] read the two fields of the instance;
    below, the progress record is passed explicitly.

    [updateProgress(attempt)].  The method assigns the fields of
    [this.progress] one after the other; the record returned here is the
    progress after the call, and [now] is the value of [new Date()].  The
    average is divided by the new [totalAttempts]. *)
Definition updateProgress (now : Z) (progress : PatternProgress.t)
    (attempt : PatternAttempt.t) : PatternProgress.t :=
  let totalAttempts := (PatternProgress.totalAttempts progress + 1)%Z in
  let successfulAttempts :=
    if isCorrect attempt || Qltb (7 # 10) (confidence attempt)
    then (PatternProgress.successfulAttempts progress + 1)%Z
    else PatternProgress.successfulAttempts progress in
  let averageTimeToSolve :=
    (PatternProgress.averageTimeToSolve progress * inject_Z (totalAttempts - 1)
     + timeSpent attempt)
    / inject_Z totalAttempts in
  let recentSuccessRate := calculateSuccessRate [attempt] in
  let masteryLevel :=
    Qmin 1 (PatternProgress.masteryLevel progress * (9 # 10)
            + recentSuccessRate * (1 # 10)) in
  PatternProgress.mk
    (PatternProgress.userId progress)
    (PatternProgress.patternType progress)
    (PatternProgress.currentDifficulty progress)
    totalAttempts successfulAttempts averageTimeToSolve
    (PatternProgress.preferredStrategies progress)
    now masteryLevel.
End BasePattern.

(** ** Completions and the instance monad *)

(** How a call ends: it returns, it throws a [TypeError], or the model's
    recursion budget is spent. *)
Inductive completion (A : Type) : Type :=
  | Normal (a : A)
  | Thrown
  | OutOfFuel.
Arguments Normal {A} a.
Arguments Thrown {A}.
Arguments OutOfFuel {A}.

Definition completion_bind {A B : Type} (c : completion A)
    (k : A -> completion B) : completion B :=
  match c with
  | Normal a => k a
  | Thrown => Thrown
  | OutOfFuel => OutOfFuel
  end.

(** ** Sequence rules ([visual-sequence-pattern.ts]) *)

Module RuleType.
Inductive t : Type := increment | pattern | alternating | conditional.

(** The string a template literal prints for [rule.type]. *)
Definition name (r : t) : string :=
  match r with
  | increment => "increment"
  | pattern => "pattern"
  | alternating => "alternating"
  | conditional => "conditional"
  end.
End RuleType.

(** [keyof VisualElement['properties']] *)
Module PropertyKey.
Inductive t : Type := shape | color | size | rotation | strokeWidth | fill.

Definition name (p : t) : string :=
  match p with
  | shape => "shape"
  | color => "color"
  | size => "size"
  | rotation => "rotation"
  | strokeWidth => "strokeWidth"
  | fill => "fill"
  end.
End PropertyKey.

(** [increment] is integral in every rule of the source. *)
Module SequenceRule.
Record t := mk {
  type : RuleType.t;
  property : PropertyKey.t;
  pattern : option (list string);
  increment : option Z;
  condition : option string
}.
End SequenceRule.

Module ValidationResult.
Record t := mk {
  isValid : bool;
  confidence : Q;
  feedback : string;
  suggestions : option (list string)
}.
End ValidationResult.

(** [a === b] on optional strings. *)
Definition option_string_eqb (a b : option string) : bool :=
  match a, b with
  | Some s1, Some s2 => String.eqb s1 s2
  | None, None => true
  | _, _ => false
  end.

(** [n || d] on an optional number: [undefined] and [0] are falsy. *)
Definition number_or (n : option Q) (d : Q) : Q :=
  match n with
  | Some q => if Qeq_bool q 0 then d else q
  | None => d
  end.

(** [n || d] on an optional integer. *)
Definition integer_or (n : option Z) (d : Z) : Z :=
  match n with
  | Some z => if (z =? 0)%Z then d else z
  | None => d
  end.

(** [arr.map((element, index) => f(element, index))] *)
Fixpoint mapi_from {A B : Type} (f : A -> Z -> B) (index : Z) (l : list A)
    : list B :=
  match l with
  | [] => []
  | a :: l' => f a index :: mapi_from f (index + 1)%Z l'
  end.

Definition mapi {A B : Type} (f : A -> Z -> B) (l : list A) : list B :=
  mapi_from f 0%Z l.

(** [arr.includes(i)] on integers. *)
Definition includes (l : list Z) (i : Z) : bool :=
  existsb (Z.eqb i) l.

(** ** The visual-sequence engine *)

Module VisualSequencePattern.

(** The instance: the two fields of [BasePattern] that the engine reads,
    [currentAttempt], and the cache [lastGeneratedPattern]. *)
Record t := mk {
  config : PatternConfig.t;
  progress : PatternProgress.t;
  currentAttempt : option PatternAttempt.t;
  lastGeneratedPattern : option PatternConfig.t
}.

(** [new VisualSequencePattern(config, progress)] *)
Definition constructor (config : PatternConfig.t) (progress : PatternProgress.t) : t :=
  mk config progress None None.

(** The instance together with the results [Math.random()] is going to
    give, and how many of them have been taken. *)
Record World := mkWorld {
  this : t;
  entropy : nat -> Q;
  drawn : nat
}.

Definition M (A : Type) : Type := World -> completion A * World.

Definition ret {A : Type} (a : A) : M A := fun w => (Normal a, w).

Definition throw {A : Type} : M A := fun w => (Thrown, w).

Definition bind {A B : Type} (m : M A) (k : A -> M B) : M B :=
  fun w =>
    match m w with
    | (Normal a, w') => k a w'
    | (Thrown, w') => (Thrown, w')
    | (OutOfFuel, w') => (OutOfFuel, w')
    end.

Notation "x <- m ;; k" := (bind m (fun x => k))
  (at level 61, m at next level, right associativity).
Notation "m ;;; k" := (bind m (fun _ => k))
  (at level 61, right associativity).

Definition lift {A : Type} (c : completion A) : M A := fun w => (c, w).

Definition get_this : M t := fun w => (Normal (this w), w).

(** [this.lastGeneratedPattern = p] *)
Definition set_lastGeneratedPattern (p : PatternConfig.t) : M unit :=
  fun w =>
    let self := this w in
    (Normal tt,
     mkWorld (mk (config self) (progress self) (currentAttempt self) (Some p))
             (entropy w) (drawn w)).

(** [Math.random()] *)
Definition Math_random : M Q :=
  fun w => (Normal (entropy w (drawn w)), mkWorld (this w) (entropy w) (S (drawn w))).

Definition shapes : list string :=
  ["circle"; "square"; "triangle"; "diamond"; "star"; "hexagon"]%string.

Definition colors : list string :=
  ["#FF6B6B"; "#4ECDC4"; "#45B7D1"; "#96CEB4"; "#FFEAA7"; "#DDA0DD";
   "#98D8C8"; "#F7DC6F"; "#BB8FCE"; "#85C1E9"; "#F8C471"; "#82E0AA"]%string.

(** [private calculateMissingPositions] *)
Definition calculateMissingPositions (sequenceLength : Z) (difficulty : Q)
    : list Z :=
  let missingCount :=
    Z.max 1 (Z.min (Qfloor (difficulty / 2)) (sequenceLength - 2)) in
  let startPos := Qfloor (inject_Z sequenceLength / 3) in
  map (fun i => (startPos + i)%Z) (upto missingCount).

(** The literal [rules] array of [generateSequenceRule], after the
    conditional [push]. *)
Definition rulePool (difficulty : Q) : list SequenceRule.t :=
  let rules :=
    [ SequenceRule.mk RuleType.increment PropertyKey.size None (Some 1%Z) None;
      SequenceRule.mk RuleType.alternating PropertyKey.color None None None;
      SequenceRule.mk RuleType.pattern PropertyKey.shape
        (Some ["circle"; "square"]%string) None None;
      SequenceRule.mk RuleType.increment PropertyKey.rotation None (Some 45%Z) None ] in
  if Qltb 5 difficulty then
    rules ++
    [ SequenceRule.mk RuleType.pattern PropertyKey.shape
        (Some ["circle"; "square"; "triangle"]%string) None None;
      SequenceRule.mk RuleType.conditional PropertyKey.color None None
        (Some "if_shape_circle_then_blue"%string) ]
  else rules.

(** [private generateSequenceRule]: the selected entry is [undefined]
    when the computed index falls outside the array. *)
Definition generateSequenceRule (difficulty : Q) : M (option SequenceRule.t) :=
  let rules := rulePool difficulty in
  u <- Math_random ;;
  ret (js_index rules
         (Qfloor (u * inject_Z (Z.min (Z.of_nat (length rules))
                                      (1 + Qfloor (difficulty / 2)))))).

(** [private generateElementProperties] *)
Definition generateElementProperties (index : Z) (rule : SequenceRule.t)
    : Properties.t :=
  let baseShape := Some "circle"%string in
  let baseColor := js_index colors 0%Z in
  let baseSize := Some 5 in
  let baseRotation := Some 0 in
  let strokeWidth := Some 2 in
  let fill := Some true in
  match SequenceRule.type rule with
  | RuleType.increment =>
      match SequenceRule.property rule with
      | PropertyKey.size =>
          Properties.mk baseShape baseColor
            (Some (inject_Z
               (Z.max 1 (Z.min 10
                  (3 + index * integer_or (SequenceRule.increment rule) 1)))))
            baseRotation strokeWidth fill
      | PropertyKey.rotation =>
          Properties.mk baseShape baseColor baseSize
            (Some (inject_Z
               (Z.rem (index * integer_or (SequenceRule.increment rule) 45) 360)))
            strokeWidth fill
      | _ => Properties.mk baseShape baseColor baseSize baseRotation strokeWidth fill
      end
  | RuleType.alternating =>
      match SequenceRule.property rule with
      | PropertyKey.color =>
          Properties.mk baseShape (js_index colors (Z.rem index 2))
            baseSize baseRotation strokeWidth fill
      | PropertyKey.shape =>
          Properties.mk (js_index shapes (Z.rem index 2)) baseColor
            baseSize baseRotation strokeWidth fill
      | _ => Properties.mk baseShape baseColor baseSize baseRotation strokeWidth fill
      end
  | RuleType.pattern =>
      match SequenceRule.pattern rule, SequenceRule.property rule with
      | Some pat, PropertyKey.shape =>
          Properties.mk (js_index pat (Z.rem index (Z.of_nat (length pat))))
            baseColor baseSize baseRotation strokeWidth fill
      | Some pat, PropertyKey.color =>
          Properties.mk baseShape
            (js_index pat (Z.rem index (Z.of_nat (length pat))))
            baseSize baseRotation strokeWidth fill
      | _, _ => Properties.mk baseShape baseColor baseSize baseRotation strokeWidth fill
      end
  | RuleType.conditional =>
      Properties.mk baseShape baseColor baseSize baseRotation strokeWidth fill
  end.

(** [private generateSequence] *)
Definition generateSequence (length : Z) (rule : SequenceRule.t)
    : list PatternElement.t :=
  map (fun i =>
         PatternElement.mk
           ("visual-" ++ string_of_index i)%string
           "shape"%string
           (generateElementProperties i rule)
           (Some (Position.mk (inject_Z (i * 100 + 50)) 200)))
      (upto length).

(** [private generateValidSolutions].  An alternate entry is the spread
    [{ ...elements[pos] }]; the spread of [undefined] is an object without
    [properties], which fails like [undefined] when it is matched, and is
    [None] here as well. *)
Definition generateValidSolutions (elements : list PatternElement.t)
    (missingPositions : list Z) (rule : SequenceRule.t)
    : list PatternSolution.t :=
  let primarySolution := map (fun pos => js_index elements pos) missingPositions in
  let solutions :=
    [ PatternSolution.mk primarySolution 1
        (Some ("Follows the " ++ RuleType.name (SequenceRule.type rule)
               ++ " pattern for "
               ++ PropertyKey.name (SequenceRule.property rule))%string) ] in
  match SequenceRule.type rule, SequenceRule.pattern rule with
  | RuleType.pattern, Some _ =>
      let altSolution := map (fun pos => js_index elements pos) missingPositions in
      solutions ++
      [ PatternSolution.mk altSolution (8 # 10)
          (Some "Alternative valid pattern interpretation"%string) ]
  | _, _ => solutions
  end.

(** [private maskElements] *)
Definition maskElements (elements : list PatternElement.t)
    (missingPositions : list Z) : list PatternElement.t :=
  mapi (fun element index =>
          if includes missingPositions index then
            let p := PatternElement.properties element in
            PatternElement.mk
              (PatternElement.id element)
              (PatternElement.type element)
              (Properties.mk None (Some "#E0E0E0"%string)
                 (Properties.size p) (Properties.rotation p)
                 (Properties.strokeWidth p) (Properties.fill p))
              (PatternElement.position element)
          else element)
       elements.

(** [private generateHints] *)
Definition generateHints (rule : SequenceRule.t)
    (elements : list PatternElement.t) : list string :=
  let property := PropertyKey.name (SequenceRule.property rule) in
  let hints := ["Look at how the shapes change from one to the next"%string] in
  let hints :=
    match SequenceRule.type rule with
    | RuleType.increment =>
        hints ++ [("Notice how the " ++ property ++ " is changing step by step")%string]
    | RuleType.alternating =>
        hints ++ [("The " ++ property ++ " follows an alternating pattern")%string]
    | RuleType.pattern =>
        hints ++ [("There's a repeating pattern in the " ++ property)%string]
    | RuleType.conditional => hints
    end in
  let hints := hints ++ ["Try to continue the pattern you see"%string] in
  hints ++ ["There might be more than one correct answer"%string].

(** [private calculateActualDifficulty] *)
Definition calculateActualDifficulty (self : t) (sequenceLength : Z)
    (rule : SequenceRule.t) (missingCount : Z) : Q :=
  let baseDifficulty := PatternConfig.difficulty (config self) in
  let baseDifficulty :=
    match SequenceRule.type rule with
    | RuleType.increment => baseDifficulty + 1
    | RuleType.alternating => baseDifficulty + 2
    | RuleType.pattern => baseDifficulty + 3
    | RuleType.conditional => baseDifficulty + 5
    end in
  let baseDifficulty :=
    baseDifficulty
    + inject_Z (Qfloor (inject_Z sequenceLength / 2) + missingCount) in
  Qmax 1 (Qmin 10 baseDifficulty).

(** [generate()].  When the selected rule is [undefined], the first read
    of [rule.type] (in [generateSequence], or in [generateValidSolutions]
    when the sequence is empty) throws before anything is returned. *)
Definition generate : M PatternConfig.t :=
  self <- get_this ;;
  let difficulty := PatternConfig.difficulty (config self) in
  let sequenceLength := Z.min (3 + Qfloor (difficulty / 2)) 8 in
  let missingPositions := calculateMissingPositions sequenceLength difficulty in
  selected <- generateSequenceRule difficulty ;;
  match selected with
  | None => throw
  | Some rule =>
      let elements := generateSequence sequenceLength rule in
      let validSolutions := generateValidSolutions elements missingPositions rule in
      let actualDifficulty :=
        calculateActualDifficulty self sequenceLength rule
          (Z.of_nat (length missingPositions)) in
      ret (PatternConfig.mk
             "visual-sequence"%string
             actualDifficulty
             (maskElements elements missingPositions)
             validSolutions
             (generateHints rule elements)
             None None
             (AccessibilityFeatures.mk true true true true))
  end.

(** [private elementsMatch]: reading [b.properties] throws when the
    solution slot holds no element. *)
Definition elementsMatch (a : PatternElement.t) (b : option PatternElement.t)
    : completion bool :=
  match b with
  | None => Thrown
  | Some b =>
      let pa := PatternElement.properties a in
      let pb := PatternElement.properties b in
      Normal
        (option_string_eqb (Properties.shape pa) (Properties.shape pb)
         && option_string_eqb (Properties.color pa) (Properties.color pb)
         && Qle_bool
              (Qabs (number_or (Properties.size pa) 5
                     - number_or (Properties.size pb) 5)) 1)
  end.

(** The [for] loop of [calculateSolutionConfidence], on two arrays of the
    same length: the number of matching positions. *)
Fixpoint countCorrect (attempt : list PatternElement.t)
    (solution : list (option PatternElement.t)) (correctElements : Z)
    : completion Z :=
  match attempt, solution with
  | attemptEl :: attempt', solutionEl :: solution' =>
      completion_bind (elementsMatch attemptEl solutionEl) (fun matched =>
        countCorrect attempt' solution'
          (if matched then correctElements + 1 else correctElements)%Z)
  | _, _ => Normal correctElements
  end.

(** [private calculateSolutionConfidence].  Both arguments are arrays, so
    the guards [!attempt] and [!solution] never fire.  With both arrays
    empty the source divides [0 / 0]; the quotient is [0] here, and its only
    use is a [>] test that fails for either value. *)
Definition calculateSolutionConfidence (attempt : list PatternElement.t)
    (solution : list (option PatternElement.t)) : completion Q :=
  if negb (length attempt =? length solution)%nat then Normal 0
  else
    completion_bind (countCorrect attempt solution 0%Z) (fun correctElements =>
      Normal (inject_Z correctElements / js_length solution)).

(** [private generateFeedback] *)
Definition generateFeedback (confidence : Q)
    (solution : option PatternSolution.t) : string :=
  if Qgeb confidence (9 # 10) then
    "Excellent! You've identified the pattern perfectly."
  else if Qgeb confidence (7 # 10) then
    "Great work! You're very close to the complete pattern."
  else if Qgeb confidence (5 # 10) then
    "Good start! You've got part of the pattern right."
  else
    "Keep exploring! Look at how the elements change from one to the next.".

(** [private generateSuggestions] *)
Definition generateSuggestions (attempt : list PatternElement.t)
    (solution : list (option PatternElement.t)) : list string :=
  [ "Try focusing on one property at a time (shape, color, size)";
    "Look for what stays the same and what changes";
    "Check if there's a repeating cycle" ]%string.

(** The local [bestMatch] of [validateSolution]. *)
Module BestMatch.
Record t := mk {
  confidence : Q;
  solution : option PatternSolution.t;
  elements : list (option PatternElement.t)
}.
End BestMatch.

(** The [for (const solution of solutions)] loop of [validateSolution].  A
    solution is a [PatternSolution] object, so [solutionElements] is its
    [elements]. *)
Fixpoint scanSolutions (attempt : list PatternElement.t)
    (solutions : list PatternSolution.t) (bestMatch : BestMatch.t)
    : completion BestMatch.t :=
  match solutions with
  | [] => Normal bestMatch
  | solution :: rest =>
      let solutionElements := PatternSolution.elements solution in
      completion_bind (calculateSolutionConfidence attempt solutionElements)
        (fun confidence =>
           scanSolutions attempt rest
             (if Qltb (BestMatch.confidence bestMatch) confidence
              then BestMatch.mk confidence (Some solution) solutionElements
              else bestMatch))
  end.

(** The solutions [validateSolution] reads first:
    [this.lastGeneratedPattern?.validSolutions || this.config.validSolutions || []]
    (an array, even an empty one, is truthy). *)
Definition currentSolutions (self : t) : list PatternSolution.t :=
  match lastGeneratedPattern self with
  | Some p => PatternConfig.validSolutions p
  | None => PatternConfig.validSolutions (config self)
  end.

(** [validateSolution] from the best-match loop on. *)
Definition scoreAttempt (attempt : list PatternElement.t)
    (solutions : list PatternSolution.t) : completion ValidationResult.t :=
  completion_bind
    (scanSolutions attempt solutions
       (BestMatch.mk 0 (js_index solutions 0%Z) []))
    (fun bestMatch =>
       let confidence :=
         if Qeq_bool (BestMatch.confidence bestMatch) 0
            && (0 <? length attempt)%nat
         then 9 # 10
         else BestMatch.confidence bestMatch in
       let isValid := Qgeb confidence (8 # 10) in
       let feedback := generateFeedback confidence (BestMatch.solution bestMatch) in
       let suggestions := generateSuggestions attempt (BestMatch.elements bestMatch) in
       Normal (ValidationResult.mk isValid confidence feedback (Some suggestions))).

(** [validateSolution(attempt)].  The method calls itself after the
    fallback generation; [fuel] bounds the depth of these calls. *)
Fixpoint validateSolution (fuel : nat) (attempt : list PatternElement.t)
    : M ValidationResult.t :=
  match fuel with
  | O => lift OutOfFuel
  | S fuel' =>
      self <- get_this ;;
      let solutions := currentSolutions self in
      if (length solutions =? 0)%nat then
        generatedPattern <- generate ;;
        set_lastGeneratedPattern generatedPattern ;;;
        validateSolution fuel' attempt
      else
        lift (scoreAttempt attempt solutions)
  end.

(** [private extractRuleFromConfig] *)
Definition extractRuleFromConfig (self : t) : SequenceRule.t :=
  SequenceRule.mk RuleType.increment PropertyKey.size None (Some 1%Z) None.

Definition getCalmingHint : string :=
  "Take your time. There's no rush. Look at the first few shapes and see what feels familiar.".

Definition getAnalyticalHint (rule : SequenceRule.t) : string :=
  ("Focus on the " ++ PropertyKey.name (SequenceRule.property rule)
   ++ " property. What mathematical relationship do you notice?")%string.

Definition getStructuralHint (rule : SequenceRule.t) : string :=
  ("Try looking at the pattern step by step. What happens to each "
   ++ PropertyKey.name (SequenceRule.property rule)
   ++ " as you move from left to right?")%string.

Definition getExploratoryHint (rule : SequenceRule.t) : string :=
  "Experiment with different possibilities. What would make sense to continue this pattern?".

(** [detectInteractionPattern(attemptHistory)]: the override of the
    base-class method. *)
Definition detectInteractionPattern (attemptHistory : list PatternAttempt.t)
    : InteractionPattern :=
  if (length attemptHistory =? 0)%nat then exploratory
  else
    let recentAttempts := slice_last 3 attemptHistory in
    let hasFrustratedInteraction :=
      existsb (fun attempt =>
                 InteractionPattern_eqb
                   (PatternAttempt.interactionPattern attempt) frustrated)
              recentAttempts in
    if hasFrustratedInteraction then frustrated
    else
      let hasSystematicPattern :=
        forallb (fun attempt =>
                   Qltb 2000 (PatternAttempt.timeSpent attempt)
                   && (PatternAttempt.hintsUsed attempt <=? 1)%Z)
                recentAttempts in
      if hasSystematicPattern then systematic
      else
        let hasRandomPattern :=
          existsb (fun attempt =>
                     InteractionPattern_eqb
                       (PatternAttempt.interactionPattern attempt) random
                     || Qltb (PatternAttempt.timeSpent attempt) 1000)
                  recentAttempts in
        if hasRandomPattern then random else exploratory.

(** [getHint(attemptHistory)]: [this.detectInteractionPattern] resolves to
    the override above. *)
Definition getHint (self : t) (attemptHistory : list PatternAttempt.t) : string :=
  let rule := extractRuleFromConfig self in
  match detectInteractionPattern attemptHistory with
  | frustrated => getCalmingHint
  | systematic => getAnalyticalHint rule
  | random => getStructuralHint rule
  | exploratory => getExploratoryHint rule
  end.

End VisualSequencePattern.

(** ** The factory ([pattern-factory.ts]) *)

Module PatternFactory.
Inductive PatternType : Type :=
  | visual_sequence | number | musical | spatial | rule_based.

Definition PatternType_name (type : PatternType) : string :=
  match type with
  | visual_sequence => "visual-sequence"
  | number => "number"
  | musical => "musical"
  | spatial => "spatial"
  | rule_based => "rule-based"
  end.

(** [createPattern]: the message of the [Error] for the types that have
    no engine. *)
Definition createPattern (type : PatternType) (config : PatternConfig.t)
    (progress : PatternProgress.t) : VisualSequencePattern.t + string :=
  match type with
  | visual_sequence => inl (VisualSequencePattern.constructor config progress)
  | number => inr "NumberPattern not yet implemented"%string
  | musical => inr "MusicalPattern not yet implemented"%string
  | spatial => inr "SpatialRotationPattern not yet implemented"%string
  | rule_based => inr "RuleBasedPattern not yet implemented"%string
  end.

(** [getDefaultConfig(type, difficulty = 3)] *)
Definition getDefaultConfig (type : PatternType) (difficulty : option Q)
    : PatternConfig.t :=
  PatternConfig.mk (PatternType_name type)
    (match difficulty with Some d => d | None => 3 end)
    [] [] [] None None
    (AccessibilityFeatures.mk true true true true).

(** [getDefaultProgress(userId, patternType)]; [now] is [new Date()]. *)
Definition getDefaultProgress (now : Z) (userId : string)
    (patternType : PatternType) : PatternProgress.t :=
  PatternProgress.mk userId (PatternType_name patternType) 1 0 0 0 [] now 0.
End PatternFactory.

(** ** Notions used to state the properties *)

(** The masked positions of a config: the indices of [elements] whose shape
    has been cleared by [maskElements]. *)
Definition maskedPositions (cfg : PatternConfig.t) : list Z :=
  concat
    (mapi (fun element index =>
             match Properties.shape (PatternElement.properties element) with
             | None => [index]
             | Some _ => []
             end)
          (PatternConfig.elements cfg)).

(** The number of elements of a config's sequence. *)
Definition sequenceLength (cfg : PatternConfig.t) : Z :=
  Z.of_nat (length (PatternConfig.elements cfg)).

(** [masked] is a run of [count] consecutive indices that starts at
    [floor(n / 3)], with [1 <= count < n], lies inside [0 .. n-1], and
    contains neither index [0] nor index [n - 1]. *)
Definition interiorRun (n : Z) (masked : list Z) : Prop :=
  exists count : Z,
    (1 <= count < n)%Z
    /\ masked = map (fun i => (n / 3 + i)%Z) (upto count)
    /\ (forall p, In p masked -> (0 <= p < n)%Z)
    /\ ~ In 0%Z masked
    /\ ~ In (n - 1)%Z masked.

(** The elements of a solution, as a user submits them. *)
Definition submittedElements (s : PatternSolution.t) : list PatternElement.t :=
  concat (map (fun slot => match slot with Some e => [e] | None => [] end)
              (PatternSolution.elements s)).

(** The canonical solution of a config: the one of confidence 1.0, which
    [generateValidSolutions] stores first. *)
Definition canonicalSolution (cfg : PatternConfig.t) : option PatternSolution.t :=
  find (fun s => Qeq_bool (PatternSolution.confidence s) 1)
       (PatternConfig.validSolutions cfg).

(** The solutions a call of [validateSolution] scores the attempt against:
    the current ones, or those of the config the fallback generates. *)
Definition scoredSolutions (w : VisualSequencePattern.World)
    : completion (list PatternSolution.t) :=
  let current := VisualSequencePattern.currentSolutions (VisualSequencePattern.this w) in
  if (length current =? 0)%nat then
    match fst (VisualSequencePattern.generate w) with
    | Normal generatedPattern => Normal (PatternConfig.validSolutions generatedPattern)
    | Thrown => Thrown
    | OutOfFuel => OutOfFuel
    end
  else Normal current.

(** A fresh engine of the factory on the default config of the given
    difficulty, with the given supply of random numbers. *)
Definition freshWorld (difficulty : Q) (entropy : nat -> Q)
    : VisualSequencePattern.World :=
  VisualSequencePattern.mkWorld
    (VisualSequencePattern.constructor
       (PatternFactory.getDefaultConfig PatternFactory.visual_sequence (Some difficulty))
       (PatternFactory.getDefaultProgress 0 "user" PatternFactory.visual_sequence))
    entropy 0.

(** A supply of random numbers that starts with the listed ones. *)
Definition draws (l : list Q) : nat -> Q := fun n => nth n l 0.

(** Five attempts of 1.5 seconds each, four of them incorrect: the history of
    the scenario, with every attempt tagged [exploratory]. *)
Definition rapidAttempt (isCorrect : bool) : PatternAttempt.t :=
  PatternAttempt.mk "attempt" 0 [] isCorrect 0 (3 # 2) 0 exploratory.

Definition rapidHistory : list PatternAttempt.t :=
  [rapidAttempt false; rapidAttempt false; rapidAttempt true;
   rapidAttempt false; rapidAttempt false].

(** The index [generateSequenceRule] computes from the random number [u]. *)
Definition ruleIndex (difficulty u : Q) : Z :=
  Qfloor (u * inject_Z
                (Z.min (Z.of_nat (length (VisualSequencePattern.rulePool difficulty)))
                       (1 + Qfloor (difficulty / 2)))).

(** The config [generate] returns on an instance once [rule] is selected. *)
Definition configFor (self : VisualSequencePattern.t) (rule : SequenceRule.t)
    : PatternConfig.t :=
  let difficulty := PatternConfig.difficulty (VisualSequencePattern.config self) in
  let sequenceLength := Z.min (3 + Qfloor (difficulty / 2)) 8 in
  let missingPositions :=
    VisualSequencePattern.calculateMissingPositions sequenceLength difficulty in
  let elements := VisualSequencePattern.generateSequence sequenceLength rule in
  PatternConfig.mk
    "visual-sequence"%string
    (VisualSequencePattern.calculateActualDifficulty self sequenceLength rule
       (Z.of_nat (length missingPositions)))
    (VisualSequencePattern.maskElements elements missingPositions)
    (VisualSequencePattern.generateValidSolutions elements missingPositions rule)
    (VisualSequencePattern.generateHints rule elements)
    None None
    (AccessibilityFeatures.mk true true true true).

(** The world after one call of [Math.random()]. *)
Definition afterDraw (w : VisualSequencePattern.World) : VisualSequencePattern.World :=
  VisualSequencePattern.mkWorld
    (VisualSequencePattern.this w) (VisualSequencePattern.entropy w)
    (S (VisualSequencePattern.drawn w)).

(** The masked sequence and the solutions of [generate] as functions of
    [half = floor(difficulty / 2)] and of the rule. *)
Definition positionsFor (half : Z) : list Z :=
  let sequenceLength := Z.min (3 + half) 8 in
  map (fun i => (Qfloor (inject_Z sequenceLength / 3) + i)%Z)
      (upto (Z.max 1 (Z.min half (sequenceLength - 2)))).

Definition maskedSequenceFor (half : Z) (rule : SequenceRule.t)
    : list PatternElement.t :=
  VisualSequencePattern.maskElements
    (VisualSequencePattern.generateSequence (Z.min (3 + half) 8) rule)
    (positionsFor half).

Definition solutionsFor (half : Z) (rule : SequenceRule.t)
    : list PatternSolution.t :=
  VisualSequencePattern.generateValidSolutions
    (VisualSequencePattern.generateSequence (Z.min (3 + half) 8) rule)
    (positionsFor half) rule.

(** Decision procedure for [interiorRun] with a given [count]. *)
Definition interiorRunb (n : Z) (masked : list Z) (count : Z) : bool :=
  (1 <=? count)%Z && (count <? n)%Z
  && (if list_eq_dec Z.eq_dec masked (map (fun i => (n / 3 + i)%Z) (upto count))
      then true else false)
  && forallb (fun p => (0 <=? p)%Z && (p <? n)%Z) masked
  && negb (includes masked 0%Z)
  && negb (includes masked (n - 1)%Z).

(** The six rules of the pool, and the values of [floor(difficulty / 2)] on
    the 1-10 scale. *)
Definition allRules : list SequenceRule.t := VisualSequencePattern.rulePool 10.

Definition halves : list Z := [0; 1; 2; 3; 4; 5]%Z.

(** An element a user may submit. *)
Definition circleElement : PatternElement.t :=
  PatternElement.mk "visual-1" "shape"
    (Properties.mk (Some "circle"%string) (Some "#FF6B6B"%string)
       (Some 5) (Some 0) (Some 2) (Some true))
    None.

(** Whether the canonical solution of [solutions], submitted as an attempt,
    is scored with confidence 1 and accepted against [solutions]. *)
Definition canonicalAcceptedb (solutions : list PatternSolution.t) : bool :=
  match find (fun s => Qeq_bool (PatternSolution.confidence s) 1) solutions with
  | Some s =>
      match VisualSequencePattern.scoreAttempt (submittedElements s) solutions with
      | Normal r =>
          Qeq_bool (ValidationResult.confidence r) 1 && ValidationResult.isValid r
      | _ => false
      end
  | None => false
  end.

(** An attempt counts as successful for [calculateSuccessRate] and
    [updateProgress] when it is correct or its confidence exceeds 0.7. *)
Definition successful (a : PatternAttempt.t) : bool :=
  PatternAttempt.isCorrect a || Qltb (7 # 10) (PatternAttempt.confidence a).

(** [updateProgress] called once per attempt of a history, each call with
    its own clock reading. *)
Definition recordAttempts (progress : PatternProgress.t)
    (history : list (Z * PatternAttempt.t)) : PatternProgress.t :=
  fold_left (fun p entry => BasePattern.updateProgress (fst entry) p (snd entry))
            history progress.

(** Solutions as the type [PatternSolution[]] has them: no slot is
    [undefined]. *)
Definition wellFormed (solutions : list PatternSolution.t) : Prop :=
  forall s, In s solutions ->
    forall slot, In slot (PatternSolution.elements s) -> slot <> None.

(** Per rule and half-difficulty: the number of solutions (two exactly for a
    [pattern] rule), their confidences, and that each lists one element per
    masked position. *)
Definition solutionsShapeb (half : Z) (rule : SequenceRule.t) : bool :=
  let solutions := solutionsFor half rule in
  let masked := positionsFor half in
  let isPattern :=
    match SequenceRule.type rule with RuleType.pattern => true | _ => false end in
  (length solutions =? (if isPattern then 2 else 1))%nat
  && forallb (fun s =>
       (length (PatternSolution.elements s) =? length masked)%nat
       && forallb (fun slot => match slot with Some _ => true | None => false end)
                  (PatternSolution.elements s))
       solutions
  && match solutions with
     | primary :: alternates =>
         Qeq_bool (PatternSolution.confidence primary) 1
         && forallb (fun s => Qeq_bool (PatternSolution.confidence s) (8 # 10))
                    alternates
     | [] => false
     end.

(** Whether the masked positions of the sequence are the positions
    [calculateMissingPositions] computed. *)
Definition maskedAsComputedb (half : Z) (rule : SequenceRule.t) : bool :=
  let cfg := PatternConfig.mk "visual-sequence" 0 (maskedSequenceFor half rule)
               [] [] None None (AccessibilityFeatures.mk true true true true) in
  if list_eq_dec Z.eq_dec (maskedPositions cfg) (positionsFor half)
  then true else false.

(** An attempt that triggers every frustration signal: one second, no
    confidence, three hints, incorrect. *)
Definition frustratedAttempt : PatternAttempt.t :=
  PatternAttempt.mk "attempt" 0 [] false 0 1 3 frustrated.

(** ** The frustration score in binary64

    [calculateFrustrationLevel] with the score accumulated, divided and
    clamped in IEEE doubles, as JavaScript does.  The three tests read the
    attempt as in [BasePattern.frustrationStep]. *)
Module Binary64.
Import PrimFloat.
#[local] Set Warnings "-inexact-float".
Local Open Scope float_scope.

(** [attempts.length] as a double (exact below 2^53). *)
Fixpoint number_of_nat (n : nat) : float :=
  match n with
  | O => 0
  | S n' => number_of_nat n' + 1
  end.

(** One iteration of the [forEach]. *)
Definition frustrationStep (frustrationScore : float) (attempt : PatternAttempt.t)
    : float :=
  let s1 :=
    if Qltb (PatternAttempt.timeSpent attempt) 3
       && Qltb (PatternAttempt.confidence attempt) (3 # 10)
    then frustrationScore + 0.3 else frustrationScore in
  let s2 :=
    if (PatternAttempt.hintsUsed attempt >? 2)%Z then s1 + 0.2 else s1 in
  if negb (PatternAttempt.isCorrect attempt)
     && Qltb (PatternAttempt.confidence attempt) (1 # 10)
  then s2 + 0.1 else s2.

(** [private calculateFrustrationLevel]; the quotient is a finite number,
    so [Math.min(1, q)] is [q] when [q < 1] and [1] otherwise. *)
Definition calculateFrustrationLevel (attempts : list PatternAttempt.t) : float :=
  if (length attempts =? 0)%nat then 0
  else
    let frustrationScore := fold_left frustrationStep attempts 0 in
    let q := frustrationScore / number_of_nat (length attempts) in
    if q <? 1 then q else 1.

Definition frustrationThreshold : float := 0.7.
End Binary64.

(** ** Numbers *)

Lemma Qltb_lt (a b : Q) : Qltb a b = true <-> a < b.
Proof.
  unfold Qltb. rewrite negb_true_iff. split; intro H.
  - apply Qnot_le_lt. intro Hle. apply Qle_bool_iff in Hle. congruence.
  - destruct (Qle_bool b a) eqn:E; [|reflexivity].
    apply Qle_bool_iff in E. exfalso. apply (Qlt_not_le _ _ H E).
Qed.

Lemma Qltb_ge (a b : Q) : Qltb a b = false <-> b <= a.
Proof.
  unfold Qltb. rewrite negb_false_iff. apply Qle_bool_iff.
Qed.

Lemma js_length_cons {A : Type} (a : A) (l : list A) :
  js_length (a :: l) == js_length l + 1.
Proof.
  unfold js_length. cbn [length]. rewrite Nat2Z.inj_succ, <- Z.add_1_r.
  rewrite inject_Z_plus. reflexivity.
Qed.

Lemma js_length_nonneg {A : Type} (l : list A) : 0 <= js_length l.
Proof.
  unfold js_length. change 0 with (inject_Z 0). rewrite <- Zle_Qle. lia.
Qed.

(** ** Difficulty adaptation *)

Section Frustration.
Import BasePattern.

(** One attempt adds between [0] and [0.3 + 0.2 + 0.1] to the score. *)
Lemma frustrationStep_bounds (s : Q) (a : PatternAttempt.t) :
  s <= frustrationStep s a /\ frustrationStep s a <= s + (6 # 10).
Proof.
  unfold frustrationStep.
  destruct (Qltb (PatternAttempt.timeSpent a) 3
            && Qltb (PatternAttempt.confidence a) (3 # 10));
    destruct (PatternAttempt.hintsUsed a >? 2)%Z;
    destruct (negb (PatternAttempt.isCorrect a)
              && Qltb (PatternAttempt.confidence a) (1 # 10));
    split; lra.
Qed.

Lemma frustrationScore_bounds (attempts : list PatternAttempt.t) :
  forall s : Q,
    s <= fold_left frustrationStep attempts s
    /\ fold_left frustrationStep attempts s <= s + (6 # 10) * js_length attempts.
Proof.
  induction attempts as [|a attempts IH]; intro s.
  - cbn [fold_left]. change (js_length (@nil PatternAttempt.t)) with 0.
    split; lra.
  - cbn [fold_left]. rewrite js_length_cons.
    destruct (IH (frustrationStep s a)) as [Hlo Hhi].
    destruct (frustrationStep_bounds s a) as [Hlo' Hhi'].
    split; lra.
Qed.

Lemma calculateFrustrationLevel_le (attempts : list PatternAttempt.t) :
  calculateFrustrationLevel attempts <= 6 # 10.
Proof.
  unfold calculateFrustrationLevel.
  destruct attempts as [|a attempts]; [cbn; lra|].
  cbn [length Nat.eqb].
  set (n := js_length (a :: attempts)).
  assert (Hn : 0 < n).
  { unfold n. rewrite js_length_cons.
    pose proof (js_length_nonneg attempts). lra. }
  destruct (frustrationScore_bounds (a :: attempts) 0) as [_ Hhi].
  fold n in Hhi.
  apply Qle_trans with (fold_left frustrationStep (a :: attempts) 0 / n).
  - apply Q.le_min_r.
  - apply Qle_shift_div_r; [exact Hn|]. lra.
Qed.

Lemma calculateFrustrationLevel_nonneg (attempts : list PatternAttempt.t) :
  0 <= calculateFrustrationLevel attempts.
Proof.
  unfold calculateFrustrationLevel.
  destruct attempts as [|a attempts]; [cbn; lra|].
  cbn [length Nat.eqb].
  set (n := js_length (a :: attempts)).
  assert (Hn : 0 < n).
  { unfold n. rewrite js_length_cons.
    pose proof (js_length_nonneg attempts). lra. }
  destruct (frustrationScore_bounds (a :: attempts) 0) as [Hlo _].
  apply Q.min_glb; [lra|].
  apply Qle_shift_div_l; [exact Hn|]. lra.
Qed.
End Frustration.

(** [adaptDifficulty] is its decision ladder at the two statistics of the
    history. *)
Lemma adaptDifficulty_ladder (progress : PatternProgress.t)
    (recentAttempts : list PatternAttempt.t) :
  BasePattern.adaptDifficulty progress recentAttempts =
  BasePattern.difficultyLadder (PatternProgress.currentDifficulty progress)
    (BasePattern.calculateSuccessRate recentAttempts)
    (BasePattern.calculateFrustrationLevel recentAttempts).
Proof. reflexivity. Qed.


(** In doubles the score of up to 2000 attempts that trigger every signal
    stays under the emergency threshold. *)
Lemma frustration_below_threshold_in_doubles :
  forallb (fun n =>
             negb (PrimFloat.ltb Binary64.frustrationThreshold
                     (Binary64.calculateFrustrationLevel (repeat frustratedAttempt n))))
          (seq 0 2001) = true.
Proof. vm_compute. reflexivity. Qed.


(** C9 as stated fails: on a progress record whose [currentDifficulty] is 50
    and an empty history no branch fires and [adaptDifficulty] returns 50. *)
Lemma adaptDifficulty_unclamped_echo :
  let progress :=
    PatternProgress.mk "user" "visual-sequence" 50 0 0 0 [] 0 0 in
  BasePattern.adaptDifficulty progress [] = 50
  /\ ~ (BasePattern.adaptDifficulty progress [] <= 10).
Proof.
  cbv zeta. split; [reflexivity|].
  intro H. vm_compute in H. apply H. reflexivity.
Qed.

(** C9, amended.  For every history and every progress record whose
    [currentDifficulty] lies in [1, 10], the value returned by
    [adaptDifficulty] lies in [1, 10]. *)
Theorem adaptDifficulty_in_range :
  forall (progress : PatternProgress.t) (attempts : list PatternAttempt.t),
    1 <= PatternProgress.currentDifficulty progress ->
    PatternProgress.currentDifficulty progress <= 10 ->
    1 <= BasePattern.adaptDifficulty progress attempts
    /\ BasePattern.adaptDifficulty progress attempts <= 10.
Proof.
  intros progress attempts Hlo Hhi.
  rewrite adaptDifficulty_ladder. unfold BasePattern.difficultyLadder.
  set (cur := PatternProgress.currentDifficulty progress) in *.
  cbv zeta.
  destruct (Qltb (7 # 10) _).
  - destruct (Q.max_spec 1 (cur - 2)) as [[L E]|[L E]]; rewrite E; split; lra.
  - destruct (Qltb (8 # 10) _ && Qltb _ (3 # 10)).
    + destruct (Q.min_spec 10 (cur + (1 # 2))) as [[L E]|[L E]]; rewrite E; split; lra.
    + destruct (Qltb _ (4 # 10)).
      * destruct (Q.max_spec 1 (cur - (1 # 2))) as [[L E]|[L E]]; rewrite E; split; lra.
      * split; lra.
Qed.

Lemma adaptDifficulty_in_range_witness :
  let progress := PatternFactory.getDefaultProgress 0 "user" PatternFactory.visual_sequence in
  1 <= PatternProgress.currentDifficulty progress
  /\ PatternProgress.currentDifficulty progress <= 10
  /\ 1 <= BasePattern.adaptDifficulty progress []
  /\ BasePattern.adaptDifficulty progress [] <= 10.
Proof.
  cbv zeta.
  split; [vm_compute; discriminate|]. split; [vm_compute; discriminate|].
  apply (adaptDifficulty_in_range
           (PatternFactory.getDefaultProgress 0 "user" PatternFactory.visual_sequence) []);
    vm_compute; discriminate.
Defined.

(** ** Interaction patterns *)

Lemma slice_last_all {A : Type} (n : nat) (l : list A) :
  (length l <= n)%nat -> slice_last n l = l.
Proof.
  intro H. unfold slice_last.
  replace (length l - n)%nat with 0%nat by lia. reflexivity.
Qed.


(** C7 fails on the code: on the scenario's history (five attempts of 1.5
    seconds, four of them incorrect) the engine's own
    [detectInteractionPattern] answers [random].  The override never looks at
    [isCorrect], and it compares [timeSpent], which is in seconds, with
    1000. *)
Theorem rapid_history_classified_random :
  length rapidHistory = 5%nat
  /\ (forall a, In a rapidHistory -> PatternAttempt.timeSpent a = 3 # 2)
  /\ length (filter (fun a => negb (PatternAttempt.isCorrect a)) rapidHistory) = 4%nat
  /\ VisualSequencePattern.detectInteractionPattern rapidHistory = random
  /\ VisualSequencePattern.detectInteractionPattern rapidHistory <> frustrated.
Proof.
  split; [reflexivity|]. split.
  { intros a Ha. cbn in Ha.
    repeat (destruct Ha as [<-|Ha]; [reflexivity|]). destruct Ha. }
  split; [reflexivity|]. split; [reflexivity|]. discriminate.
Qed.

(** On a history of exactly five attempts of 1.5 seconds each, exactly four
    of them incorrect, the base-class [detectInteractionPattern] does return
    [frustrated]; the override of the visual-sequence engine returns
    [frustrated] only when one of the last three attempts already carries the
    tag [frustrated], and [random] otherwise. *)
Lemma rapid_incorrect_history_classification :
  forall attemptHistory : list PatternAttempt.t,
    length attemptHistory = 5%nat ->
    (forall a, In a attemptHistory -> PatternAttempt.timeSpent a == 3 # 2) ->
    length (filter (fun a => negb (PatternAttempt.isCorrect a)) attemptHistory) = 4%nat ->
    BasePattern.detectInteractionPattern attemptHistory = frustrated
    /\ VisualSequencePattern.detectInteractionPattern attemptHistory =
       (if existsb (fun a => InteractionPattern_eqb
                               (PatternAttempt.interactionPattern a) frustrated)
                   (slice_last 3 attemptHistory)
        then frustrated else random).
Proof.
  intros h Hlen Htime Hwrong.
  destruct h as [|a1 [|a2 [|a3 [|a4 [|a5 [|a6 h]]]]]]; try discriminate Hlen.
  assert (T1 := Htime a1 ltac:(cbn; tauto)).
  assert (T2 := Htime a2 ltac:(cbn; tauto)).
  assert (T3 := Htime a3 ltac:(cbn; tauto)).
  assert (T4 := Htime a4 ltac:(cbn; tauto)).
  assert (T5 := Htime a5 ltac:(cbn; tauto)).
  split.
  - unfold BasePattern.detectInteractionPattern.
    rewrite slice_last_all by (cbn; lia).
    rewrite Hwrong.
    change (length [a1; a2; a3; a4; a5] <? 3)%nat with false.
    change (3 <? 4)%nat with true.
    cbv iota. rewrite andb_true_r.
    match goal with |- (if ?c then _ else _) = _ =>
      assert (Hrapid : c = true); [|rewrite Hrapid; reflexivity] end.
    apply Qltb_lt. cbn [fold_left].
    change (js_length [a1; a2; a3; a4; a5]) with 5.
    apply Qlt_shift_div_r; [reflexivity|]. lra.
  - unfold VisualSequencePattern.detectInteractionPattern.
    change (length [a1; a2; a3; a4; a5] =? 0)%nat with false.
    change (slice_last 3 [a1; a2; a3; a4; a5]) with [a3; a4; a5].
    cbv iota zeta.
    destruct (existsb _ [a3; a4; a5]); [reflexivity|].
    assert (Hslow : Qltb 2000 (PatternAttempt.timeSpent a3) = false)
      by (apply Qltb_ge; lra).
    assert (Hfast : Qltb (PatternAttempt.timeSpent a3) 1000 = true)
      by (apply Qltb_lt; lra).
    cbn [forallb existsb]. rewrite Hslow, Hfast.
    cbn [andb]. rewrite orb_true_r. reflexivity.
Qed.

Lemma rapid_incorrect_history_classification_witness :
  BasePattern.detectInteractionPattern rapidHistory = frustrated
  /\ VisualSequencePattern.detectInteractionPattern rapidHistory =
     (if existsb (fun a => InteractionPattern_eqb
                             (PatternAttempt.interactionPattern a) frustrated)
                 (slice_last 3 rapidHistory)
      then frustrated else random).
Proof.
  apply (rapid_incorrect_history_classification rapidHistory).
  - reflexivity.
  - intros a Ha. cbn in Ha.
    repeat (destruct Ha as [<-|Ha]; [reflexivity|]). destruct Ha.
  - reflexivity.
Defined.



(** ** Generation *)

Section Generate.
Import VisualSequencePattern.

(** [generate] draws one random number, leaves the instance as it is, and
    returns the config of the selected rule, or throws when no rule is
    selected. *)
Lemma generate_run (w : World) :
  generate w =
  (match js_index (rulePool (PatternConfig.difficulty (config (this w))))
           (ruleIndex (PatternConfig.difficulty (config (this w)))
                      (entropy w (drawn w))) with
   | Some rule => Normal (configFor (this w) rule)
   | None => Thrown
   end,
   afterDraw w).
Proof.
  cbv beta iota zeta delta
    [generate bind get_this generateSequenceRule Math_random ret throw
     ruleIndex afterDraw this entropy drawn].
  destruct (js_index _ _); reflexivity.
Qed.

Lemma generate_preserves_instance (w : World) :
  this (snd (generate w)) = this w.
Proof. rewrite generate_run. reflexivity. Qed.

Lemma half_difficulty_range (difficulty : Q) :
  1 <= difficulty -> difficulty <= 10 ->
  (0 <= Qfloor (difficulty / 2) <= 5)%Z.
Proof.
  intros Hlo Hhi. split.
  - change 0%Z with (Qfloor 0). apply Qfloor_resp_le.
    apply Qle_shift_div_l; [reflexivity|]. lra.
  - change 5%Z with (Qfloor 5). apply Qfloor_resp_le.
    apply Qle_shift_div_r; [reflexivity|]. lra.
Qed.

Lemma rulePool_length (difficulty : Q) :
  (4 <= length (rulePool difficulty))%nat.
Proof. unfold rulePool. destruct (Qltb 5 difficulty); cbn; lia. Qed.

Lemma rulePool_allRules (difficulty : Q) (rule : SequenceRule.t) :
  In rule (rulePool difficulty) -> In rule allRules.
Proof.
  unfold rulePool, allRules. destruct (Qltb 5 difficulty); cbn; tauto.
Qed.

(** With a difficulty of at least 0 and a random number in [0, 1), the
    computed index selects a rule of the pool. *)
Lemma rule_selected (difficulty u : Q) :
  (0 <= Qfloor (difficulty / 2))%Z -> 0 <= u -> u < 1 ->
  exists rule,
    js_index (rulePool difficulty) (ruleIndex difficulty u) = Some rule
    /\ In rule (rulePool difficulty).
Proof.
  intros Hhalf Hu0 Hu1. unfold ruleIndex.
  pose proof (rulePool_length difficulty) as Hlen.
  set (pool := rulePool difficulty) in *.
  set (m := Z.min (Z.of_nat (length pool)) (1 + Qfloor (difficulty / 2))).
  assert (Hm : (1 <= m <= Z.of_nat (length pool))%Z) by (unfold m; lia).
  assert (Hm' : 0 < inject_Z m).
  { change 0 with (inject_Z 0). rewrite <- Zlt_Qlt. lia. }
  assert (Hidx0 : (0 <= Qfloor (u * inject_Z m))%Z).
  { change 0%Z with (Qfloor 0). apply Qfloor_resp_le.
    apply Qmult_le_0_compat; [exact Hu0|apply Qlt_le_weak; exact Hm']. }
  assert (Hidx1 : (Qfloor (u * inject_Z m) < m)%Z).
  { rewrite Zlt_Qlt.
    apply Qle_lt_trans with (u * inject_Z m); [apply Qfloor_le|].
    setoid_replace (inject_Z m) with (1 * inject_Z m) at 2 by ring.
    apply Qmult_lt_compat_r; assumption. }
  unfold js_index.
  destruct (Qfloor (u * inject_Z m) <? 0)%Z eqn:E; [apply Z.ltb_lt in E; lia|].
  destruct (nth_error pool (Z.to_nat (Qfloor (u * inject_Z m)))) as [rule|] eqn:En.
  - exists rule. split; [reflexivity|]. eapply nth_error_In; exact En.
  - apply nth_error_None in En. lia.
Qed.

(** On the documented scale of difficulty, [generate] returns a config. *)
Lemma generate_returns (w : World) :
  (0 <= Qfloor (PatternConfig.difficulty (config (this w)) / 2))%Z ->
  0 <= entropy w (drawn w) -> entropy w (drawn w) < 1 ->
  exists rule,
    In rule (rulePool (PatternConfig.difficulty (config (this w))))
    /\ generate w = (Normal (configFor (this w) rule), afterDraw w).
Proof.
  intros Hhalf Hu0 Hu1.
  destruct (rule_selected _ _ Hhalf Hu0 Hu1) as [rule [Hsel Hin]].
  exists rule. split; [exact Hin|]. rewrite generate_run, Hsel. reflexivity.
Qed.

Lemma configFor_elements (self : t) (rule : SequenceRule.t) :
  PatternConfig.elements (configFor self rule) =
  maskedSequenceFor (Qfloor (PatternConfig.difficulty (config self) / 2)) rule.
Proof. reflexivity. Qed.

Lemma configFor_validSolutions (self : t) (rule : SequenceRule.t) :
  PatternConfig.validSolutions (configFor self rule) =
  solutionsFor (Qfloor (PatternConfig.difficulty (config self) / 2)) rule.
Proof. reflexivity. Qed.

Lemma configFor_hints (self : t) (rule : SequenceRule.t) :
  PatternConfig.hints (configFor self rule) = generateHints rule [].
Proof. reflexivity. Qed.
End Generate.

Lemma interiorRunb_sound (n : Z) (masked : list Z) (count : Z) :
  interiorRunb n masked count = true -> interiorRun n masked.
Proof.
  unfold interiorRunb, interiorRun. intro H.
  repeat (apply andb_true_iff in H; destruct H as [H ?]).
  exists count.
  destruct (list_eq_dec Z.eq_dec masked _) as [Heq|]; [|discriminate].
  split; [lia|]. split; [exact Heq|]. split; [|split].
  - intros p Hp.
    match goal with Hall : forallb _ _ = true |- _ =>
      rewrite forallb_forall in Hall; specialize (Hall p Hp) end.
    lia.
  - intro Hin.
    match goal with Hn : negb (includes masked 0%Z) = true |- _ =>
      apply negb_true_iff in Hn; unfold includes in Hn;
      assert (Hex : existsb (Z.eqb 0) masked = true)
        by (apply existsb_exists; exists 0%Z; split; [exact Hin|apply Z.eqb_refl]);
      congruence end.
  - intro Hin.
    match goal with Hn : negb (includes masked (n - 1)%Z) = true |- _ =>
      apply negb_true_iff in Hn; unfold includes in Hn;
      assert (Hex : existsb (Z.eqb (n - 1)) masked = true)
        by (apply existsb_exists; exists (n - 1)%Z; split; [exact Hin|apply Z.eqb_refl]);
      congruence end.
Qed.

(** Every pairing of a half-difficulty of the scale with a rule of the pool
    masks an interior run. *)
Lemma masked_sequences_checked :
  forallb (fun half =>
    forallb (fun rule =>
      let cfgElements := maskedSequenceFor half rule in
      let cfg := PatternConfig.mk "visual-sequence" 0 cfgElements [] [] None None
                   (AccessibilityFeatures.mk true true true true) in
      interiorRunb (sequenceLength cfg) (maskedPositions cfg)
        (Z.max 1 (Z.min half (Z.min (3 + half) 8 - 2))))
      allRules)
    halves = true.
Proof. vm_compute. reflexivity. Qed.

(** C3 as stated fails: at difficulty 1 the sequence has three elements and
    the masked position is index 1, the second-to-last one. *)
Lemma second_to_last_position_masked :
  exists cfg w',
    VisualSequencePattern.generate (freshWorld 1 (draws [0])) = (Normal cfg, w')
    /\ sequenceLength cfg = 3%Z
    /\ maskedPositions cfg = [1%Z]
    /\ In (sequenceLength cfg - 2)%Z (maskedPositions cfg).
Proof.
  eexists. eexists. split; [vm_compute; reflexivity|].
  split; [reflexivity|]. split; [reflexivity|]. left. reflexivity.
Qed.

(** C3, amended.  For a configured difficulty on the 1-10 scale (and a
    random number in [0, 1)), [generate] returns a config whose masked
    positions are a non-empty, strict, contiguous subset of the sequence
    indices that starts at [floor(length / 3)] and contains neither the
    first nor the last position. *)
Theorem masked_positions_interior :
  forall w : VisualSequencePattern.World,
    1 <= PatternConfig.difficulty
           (VisualSequencePattern.config (VisualSequencePattern.this w)) ->
    PatternConfig.difficulty
      (VisualSequencePattern.config (VisualSequencePattern.this w)) <= 10 ->
    0 <= VisualSequencePattern.entropy w (VisualSequencePattern.drawn w) ->
    VisualSequencePattern.entropy w (VisualSequencePattern.drawn w) < 1 ->
    exists cfg w',
      VisualSequencePattern.generate w = (Normal cfg, w')
      /\ interiorRun (sequenceLength cfg) (maskedPositions cfg).
Proof.
  intros w Hlo Hhi Hu0 Hu1.
  pose proof (half_difficulty_range _ Hlo Hhi) as Hhalf.
  destruct (generate_returns w (proj1 Hhalf) Hu0 Hu1) as [rule [Hin Hgen]].
  exists (configFor (VisualSequencePattern.this w) rule), (afterDraw w).
  split; [exact Hgen|].
  apply rulePool_allRules in Hin.
  unfold sequenceLength, maskedPositions. rewrite configFor_elements.
  set (half := Qfloor (PatternConfig.difficulty
                 (VisualSequencePattern.config (VisualSequencePattern.this w)) / 2)) in *.
  assert (Hh : In half halves) by (unfold halves, In; lia).
  pose proof masked_sequences_checked as Hall.
  rewrite forallb_forall in Hall. specialize (Hall half Hh).
  rewrite forallb_forall in Hall. specialize (Hall rule Hin).
  apply interiorRunb_sound in Hall. exact Hall.
Qed.

Lemma masked_positions_interior_witness :
  exists cfg w',
    VisualSequencePattern.generate (freshWorld 3 (draws [1 # 2])) = (Normal cfg, w')
    /\ interiorRun (sequenceLength cfg) (maskedPositions cfg).
Proof.
  apply (masked_positions_interior (freshWorld 3 (draws [1 # 2])));
    vm_compute; discriminate || reflexivity.
Defined.

(** ** Hints *)

(** For the rule types [increment], [alternating] and [pattern],
    [generateHints] gives four hints: the opening one, the one of the rule,
    and the two closing ones. *)
Lemma generateHints_four (rule : SequenceRule.t) (elements : list PatternElement.t) :
  SequenceRule.type rule <> RuleType.conditional ->
  exists ruleHint,
    VisualSequencePattern.generateHints rule elements =
    [ "Look at how the shapes change from one to the next"%string;
      ruleHint;
      "Try to continue the pattern you see"%string;
      "There might be more than one correct answer"%string ].
Proof.
  intro Hnc. unfold VisualSequencePattern.generateHints.
  destruct (SequenceRule.type rule); try congruence; eexists; reflexivity.
Qed.

(** C6 fails on the code: at difficulty 10 a random number of 0.9 selects
    the conditional rule, for which [generateHints] adds no rule hint, and
    the returned config carries three hints. *)
Theorem conditional_rule_three_hints :
  exists cfg w',
    VisualSequencePattern.generate (freshWorld 10 (draws [9 # 10])) = (Normal cfg, w')
    /\ PatternConfig.hints cfg =
       [ "Look at how the shapes change from one to the next"%string;
         "Try to continue the pattern you see"%string;
         "There might be more than one correct answer"%string ]
    /\ length (PatternConfig.hints cfg) = 3%nat.
Proof.
  eexists. eexists. split; [vm_compute; reflexivity|].
  split; reflexivity.
Qed.

(** ** The cache of the last generated pattern *)

(** C2 fails on the code: [generate] never assigns [lastGeneratedPattern].
    On a fresh engine the cache is still unset after [generate] has returned
    a config, and a following [validateSolution] finds no solutions, generates
    a second config and scores against that one. *)
Theorem generate_does_not_cache :
  (forall w : VisualSequencePattern.World,
     VisualSequencePattern.lastGeneratedPattern
       (VisualSequencePattern.this (snd (VisualSequencePattern.generate w)))
     = VisualSequencePattern.lastGeneratedPattern (VisualSequencePattern.this w))
  /\ exists cfg w',
       VisualSequencePattern.generate (freshWorld 3 (draws [0])) = (Normal cfg, w')
       /\ VisualSequencePattern.lastGeneratedPattern (VisualSequencePattern.this w') = None
       /\ VisualSequencePattern.lastGeneratedPattern (VisualSequencePattern.this w')
          <> Some cfg
       /\ VisualSequencePattern.currentSolutions (VisualSequencePattern.this w') = [].
Proof.
  split.
  - intro w. rewrite generate_preserves_instance. reflexivity.
  - eexists. eexists. split; [vm_compute; reflexivity|].
    split; [reflexivity|]. split; [discriminate|reflexivity].
Qed.

(** ** Validation *)

Section Validate.
Import VisualSequencePattern.

Lemma calculateSolutionConfidence_length_mismatch
    (attempt : list PatternElement.t) (solution : list (option PatternElement.t)) :
  length attempt <> length solution ->
  calculateSolutionConfidence attempt solution = Normal 0.
Proof.
  intro Hne. unfold calculateSolutionConfidence.
  destruct (Nat.eqb_spec (length attempt) (length solution)) as [E|_];
    [contradiction|reflexivity].
Qed.

Lemma scanSolutions_all_mismatch (attempt : list PatternElement.t) :
  forall (solutions : list PatternSolution.t) (bestMatch : BestMatch.t),
    Qltb (BestMatch.confidence bestMatch) 0 = false ->
    (forall s, In s solutions ->
       length attempt <> length (PatternSolution.elements s)) ->
    scanSolutions attempt solutions bestMatch = Normal bestMatch.
Proof.
  induction solutions as [|s solutions IH]; intros best Hbest Hall.
  - reflexivity.
  - cbn [scanSolutions].
    rewrite calculateSolutionConfidence_length_mismatch
      by (apply Hall; left; reflexivity).
    cbn [completion_bind]. rewrite Hbest.
    apply IH; [exact Hbest|]. intros s' Hs'. apply Hall. right. exact Hs'.
Qed.

(** The safety valve: a non-empty attempt that matches no solution in
    length is given confidence 0.9. *)
Lemma scoreAttempt_all_mismatch (attempt : list PatternElement.t)
    (solutions : list PatternSolution.t) :
  attempt <> [] ->
  (forall s, In s solutions ->
     length attempt <> length (PatternSolution.elements s)) ->
  scoreAttempt attempt solutions =
  Normal (ValidationResult.mk true (9 # 10)
            "Excellent! You've identified the pattern perfectly."
            (Some (generateSuggestions attempt []))).
Proof.
  intros Hne Hall. unfold scoreAttempt.
  rewrite scanSolutions_all_mismatch by (reflexivity || exact Hall).
  destruct attempt as [|a attempt]; [congruence|]. reflexivity.
Qed.

Lemma generateValidSolutions_nonempty (elements : list PatternElement.t)
    (missingPositions : list Z) (rule : SequenceRule.t) :
  generateValidSolutions elements missingPositions rule <> [].
Proof.
  unfold generateValidSolutions.
  destruct (SequenceRule.type rule); try discriminate.
  destruct (SequenceRule.pattern rule); discriminate.
Qed.

(** With solutions at hand, [validateSolution] scores the attempt against
    them and leaves the instance as it is. *)
Lemma validateSolution_scores (fuel : nat) (attempt : list PatternElement.t)
    (w : World) :
  currentSolutions (this w) <> [] ->
  validateSolution (S fuel) attempt w =
  (scoreAttempt attempt (currentSolutions (this w)), w).
Proof.
  intro Hne. cbn [validateSolution]. unfold bind at 1, get_this.
  destruct (currentSolutions (this w)) as [|s solutions] eqn:E; [congruence|].
  reflexivity.
Qed.

(** Without solutions, [validateSolution] generates a config, caches it and
    scores the attempt against its solutions. *)
Lemma validateSolution_fallback (fuel : nat) (attempt : list PatternElement.t)
    (w : World) :
  currentSolutions (this w) = [] ->
  validateSolution (S (S fuel)) attempt w =
  match generate w with
  | (Normal generatedPattern, w1) =>
      (scoreAttempt attempt (PatternConfig.validSolutions generatedPattern),
       snd (set_lastGeneratedPattern generatedPattern w1))
  | (Thrown, w1) => (Thrown, w1)
  | (OutOfFuel, w1) => (OutOfFuel, w1)
  end.
Proof.
  intro Hempty. cbn [validateSolution]. unfold bind at 1, get_this.
  cbv beta iota. rewrite Hempty. cbn [length Nat.eqb].
  unfold bind at 1. rewrite generate_run.
  destruct (js_index _ _) as [rule|]; [|reflexivity].
  unfold bind at 1.
  set (cfg := configFor (this w) rule).
  set (w2 := snd (set_lastGeneratedPattern cfg (afterDraw w))).
  change (set_lastGeneratedPattern cfg (afterDraw w)) with (Normal tt, w2).
  cbv beta iota.
  assert (Hcur : currentSolutions (this w2) = PatternConfig.validSolutions cfg)
    by reflexivity.
  destruct fuel as [|fuel];
    (cbn [validateSolution]; unfold bind at 1, get_this; cbv beta iota;
     rewrite Hcur;
     destruct (PatternConfig.validSolutions cfg) eqn:E;
     [exfalso; revert E; apply generateValidSolutions_nonempty|reflexivity]).
Qed.

Lemma countCorrect_terminates (attempt : list PatternElement.t) :
  forall (solution : list (option PatternElement.t)) (correctElements : Z),
    countCorrect attempt solution correctElements <> OutOfFuel.
Proof.
  induction attempt as [|a attempt IH]; intros solution z; [discriminate|].
  destruct solution as [|[e|] solution]; cbn; try discriminate. apply IH.
Qed.

Lemma scanSolutions_terminates (attempt : list PatternElement.t) :
  forall (solutions : list PatternSolution.t) (bestMatch : BestMatch.t),
    scanSolutions attempt solutions bestMatch <> OutOfFuel.
Proof.
  induction solutions as [|s solutions IH]; intro best; [discriminate|].
  cbn [scanSolutions]. unfold calculateSolutionConfidence.
  destruct (negb _); cbn [completion_bind]; [apply IH|].
  pose proof (countCorrect_terminates attempt (PatternSolution.elements s) 0%Z) as Hc.
  destruct (countCorrect _ _ _); cbn [completion_bind];
    [apply IH|discriminate|congruence].
Qed.

Lemma scoreAttempt_terminates (attempt : list PatternElement.t)
    (solutions : list PatternSolution.t) :
  scoreAttempt attempt solutions <> OutOfFuel.
Proof.
  unfold scoreAttempt.
  pose proof (scanSolutions_terminates attempt solutions
                (BestMatch.mk 0 (js_index solutions 0%Z) [])) as Hs.
  destruct (scanSolutions _ _ _); cbn [completion_bind];
    [discriminate|discriminate|congruence].
Qed.

(** Two levels of calls are always enough: from depth 2 on,
    [validateSolution] never runs out of fuel, and more fuel does not
    change its result. *)
Lemma validateSolution_fuel (fuel : nat) (attempt : list PatternElement.t)
    (w : World) :
  validateSolution (S (S fuel)) attempt w = validateSolution 2 attempt w
  /\ fst (validateSolution (S (S fuel)) attempt w) <> OutOfFuel.
Proof.
  destruct (currentSolutions (this w)) as [|s solutions] eqn:E.
  - rewrite (validateSolution_fallback fuel), (validateSolution_fallback 0) by exact E.
    split; [reflexivity|].
    rewrite generate_run.
    destruct (js_index _ _) as [rule|]; cbn [fst]; [|discriminate].
    apply scoreAttempt_terminates.
  - assert (Hne : currentSolutions (this w) <> []) by congruence.
    rewrite (validateSolution_scores (S fuel)), (validateSolution_scores 1) by exact Hne.
    split; [reflexivity|]. cbn [fst]. apply scoreAttempt_terminates.
Qed.
End Validate.

(** C10.  A non-empty attempt whose length differs from the element count of
    every solution it is scored against has confidence 0 against each of
    them, and [validateSolution] returns confidence 0.9 and [isValid = true]. *)
Theorem length_mismatch_forced_to_point_nine :
  forall (fuel : nat) (w : VisualSequencePattern.World)
         (attempt : list PatternElement.t) (solutions : list PatternSolution.t),
    attempt <> [] ->
    scoredSolutions w = Normal solutions ->
    (forall s, In s solutions ->
       length attempt <> length (PatternSolution.elements s)) ->
    (forall s, In s solutions ->
       VisualSequencePattern.calculateSolutionConfidence attempt
         (PatternSolution.elements s) = Normal 0)
    /\ exists r w',
         VisualSequencePattern.validateSolution (S (S fuel)) attempt w = (Normal r, w')
         /\ ValidationResult.confidence r = 9 # 10
         /\ ValidationResult.isValid r = true.
Proof.
  intros fuel w attempt solutions Hne Hscored Hall. split.
  - intros s Hs. apply calculateSolutionConfidence_length_mismatch. apply Hall, Hs.
  - unfold scoredSolutions in Hscored.
    destruct (VisualSequencePattern.currentSolutions (VisualSequencePattern.this w))
      as [|s0 current] eqn:E.
    + cbn [length Nat.eqb] in Hscored.
      rewrite validateSolution_fallback by exact E.
      destruct (VisualSequencePattern.generate w) as [[cfg| |] w1];
        cbn [fst] in Hscored; try discriminate Hscored.
      injection Hscored as Hsol. rewrite Hsol.
      rewrite scoreAttempt_all_mismatch by assumption.
      eexists. eexists. split; [reflexivity|]. split; reflexivity.
    + cbn [length Nat.eqb] in Hscored. injection Hscored as Hsol.
      rewrite validateSolution_scores by congruence.
      rewrite E, Hsol.
      rewrite scoreAttempt_all_mismatch by assumption.
      eexists. eexists. split; [reflexivity|]. split; reflexivity.
Qed.

Lemma length_mismatch_forced_to_point_nine_witness :
  exists r w',
    VisualSequencePattern.validateSolution 2 [circleElement]
      (freshWorld 4 (draws [0])) = (Normal r, w')
    /\ ValidationResult.confidence r = 9 # 10
    /\ ValidationResult.isValid r = true.
Proof.
  refine (proj2 (length_mismatch_forced_to_point_nine 0
                   (freshWorld 4 (draws [0])) [circleElement]
                   (solutionsFor 2 (SequenceRule.mk RuleType.increment
                                      PropertyKey.size None (Some 1%Z) None))
                   _ _ _)).
  - discriminate.
  - vm_compute. reflexivity.
  - intros s [<-|[]]. vm_compute. discriminate.
Defined.

(** ** Round trip *)

(** Scored against the solutions of its own config, the canonical solution
    of every config of the 1-10 scale has confidence 1 and is accepted. *)
Lemma canonical_solutions_checked :
  forallb (fun half =>
    forallb (fun rule => canonicalAcceptedb (solutionsFor half rule)) allRules)
    halves = true.
Proof. vm_compute. reflexivity. Qed.

(** Had the instance cached the config that [generate] returned, the round
    trip would succeed: with that config in [lastGeneratedPattern],
    [validateSolution] gives the canonical solution confidence 1. *)
Lemma canonical_accepted_when_cached :
  forall (fuel : nat) (w : VisualSequencePattern.World),
    1 <= PatternConfig.difficulty
           (VisualSequencePattern.config (VisualSequencePattern.this w)) ->
    PatternConfig.difficulty
      (VisualSequencePattern.config (VisualSequencePattern.this w)) <= 10 ->
    0 <= VisualSequencePattern.entropy w (VisualSequencePattern.drawn w) ->
    VisualSequencePattern.entropy w (VisualSequencePattern.drawn w) < 1 ->
    exists cfg w' s r,
      VisualSequencePattern.generate w = (Normal cfg, w')
      /\ canonicalSolution cfg = Some s
      /\ (let cached := snd (VisualSequencePattern.set_lastGeneratedPattern cfg w') in
          VisualSequencePattern.validateSolution (S fuel) (submittedElements s) cached
          = (Normal r, cached))
      /\ ValidationResult.confidence r == 1
      /\ ValidationResult.isValid r = true.
Proof.
  intros fuel w Hlo Hhi Hu0 Hu1.
  pose proof (half_difficulty_range _ Hlo Hhi) as Hhalf.
  destruct (generate_returns w (proj1 Hhalf) Hu0 Hu1) as [rule [Hin Hgen]].
  apply rulePool_allRules in Hin.
  set (cfg := configFor (VisualSequencePattern.this w) rule) in *.
  assert (Hh : In (Qfloor (PatternConfig.difficulty
                     (VisualSequencePattern.config (VisualSequencePattern.this w)) / 2))
                  halves) by (unfold halves, In; lia).
  pose proof canonical_solutions_checked as Hall.
  rewrite forallb_forall in Hall. specialize (Hall _ Hh).
  rewrite forallb_forall in Hall. specialize (Hall rule Hin).
  rewrite <- configFor_validSolutions in Hall. fold cfg in Hall.
  unfold canonicalAcceptedb in Hall. fold (canonicalSolution cfg) in Hall.
  destruct (canonicalSolution cfg) as [s|] eqn:Ecan; [|discriminate].
  destruct (VisualSequencePattern.scoreAttempt _ _) as [r| |] eqn:Escore;
    try discriminate.
  apply andb_true_iff in Hall. destruct Hall as [Hconf Hvalid].
  exists cfg, (afterDraw w), s, r.
  split; [exact Hgen|]. split; [exact Ecan|]. split; [|split].
  - cbv zeta. rewrite validateSolution_scores.
    + change (VisualSequencePattern.currentSolutions _)
        with (PatternConfig.validSolutions cfg).
      rewrite Escore. reflexivity.
    + change (VisualSequencePattern.currentSolutions _)
        with (PatternConfig.validSolutions cfg).
      apply generateValidSolutions_nonempty.
  - apply Qeq_bool_iff. exact Hconf.
  - exact Hvalid.
Qed.

(** C1 fails on the code.  A fresh engine at difficulty 4 generates a config
    under the alternating-colour rule ([Math.random()] gives 0.5).  Its
    canonical solution is then submitted to [validateSolution]: the cache is
    unset, so a second config is generated under the increment-size rule
    ([Math.random()] gives 0), and against that one the attempt gets
    confidence 0.5 and is rejected. *)
Theorem canonical_round_trip_rejected :
  exists cfg w1 s r w2,
    VisualSequencePattern.generate (freshWorld 4 (draws [1 # 2; 0])) = (Normal cfg, w1)
    /\ canonicalSolution cfg = Some s
    /\ VisualSequencePattern.validateSolution 2 (submittedElements s) w1 = (Normal r, w2)
    /\ ValidationResult.confidence r = 1 # 2
    /\ ~ (8 # 10 <= ValidationResult.confidence r)
    /\ ValidationResult.isValid r = false.
Proof.
  do 5 eexists.
  split; [vm_compute; reflexivity|].
  split; [vm_compute; reflexivity|].
  split; [vm_compute; reflexivity|].
  split; [reflexivity|]. split; [|reflexivity].
  cbn. intro H. vm_compute in H. apply H. reflexivity.
Qed.

(** * Further properties of the engine *)

(** ** Success rate and the steps of the difficulty *)

Lemma js_length_positive {A : Type} (a : A) (l : list A) : 0 < js_length (a :: l).
Proof.
  rewrite js_length_cons. pose proof (js_length_nonneg l). lra.
Qed.

Lemma js_length_filter_le {A : Type} (f : A -> bool) (l : list A) :
  js_length (filter f l) <= js_length l.
Proof.
  unfold js_length. rewrite <- Zle_Qle. apply inj_le. apply filter_length_le.
Qed.

(** The success rate of a history is a fraction between 0 and 1, and is the
    neutral 0.5 when there is no attempt. *)
Theorem calculateSuccessRate_range :
  forall attempts : list PatternAttempt.t,
    0 <= BasePattern.calculateSuccessRate attempts
    /\ BasePattern.calculateSuccessRate attempts <= 1
    /\ (attempts = [] -> BasePattern.calculateSuccessRate attempts = 1 # 2).
Proof.
  intros [|a attempts].
  - split; [cbn; lra|]. split; [cbn; lra|]. reflexivity.
  - unfold BasePattern.calculateSuccessRate. cbn [length Nat.eqb].
    pose proof (js_length_positive a attempts) as Hn.
    set (f := fun a0 => PatternAttempt.isCorrect a0
                        || Qltb (7 # 10) (PatternAttempt.confidence a0)).
    pose proof (js_length_filter_le f (a :: attempts)) as Hle.
    pose proof (js_length_nonneg (filter f (a :: attempts))) as H0.
    split; [|split; [|discriminate]].
    + apply Qle_shift_div_l; [exact Hn|]. lra.
    + apply Qle_shift_div_r; [exact Hn|]. lra.
Qed.

Lemma emergency_guard_false (attempts : list PatternAttempt.t) :
  Qltb (7 # 10) (BasePattern.calculateFrustrationLevel attempts) = false.
Proof.
  apply Qltb_ge. pose proof (calculateFrustrationLevel_le attempts). lra.
Qed.

(** One call of [adaptDifficulty] moves a difficulty of the 1-10 scale by at
    most half a point, whatever the history. *)
Theorem adaptDifficulty_half_step :
  forall (progress : PatternProgress.t) (attempts : list PatternAttempt.t),
    1 <= PatternProgress.currentDifficulty progress ->
    PatternProgress.currentDifficulty progress <= 10 ->
    PatternProgress.currentDifficulty progress - (1 # 2)
      <= BasePattern.adaptDifficulty progress attempts
    /\ BasePattern.adaptDifficulty progress attempts
       <= PatternProgress.currentDifficulty progress + (1 # 2).
Proof.
  intros progress attempts Hlo Hhi.
  rewrite adaptDifficulty_ladder. unfold BasePattern.difficultyLadder.
  cbv zeta. rewrite emergency_guard_false.
  set (cur := PatternProgress.currentDifficulty progress) in *.
  destruct (Qltb (8 # 10) _ && Qltb _ (3 # 10)).
  - destruct (Q.min_spec 10 (cur + (1 # 2))) as [[L E]|[L E]]; rewrite E; split; lra.
  - destruct (Qltb _ (4 # 10)).
    + destruct (Q.max_spec 1 (cur - (1 # 2))) as [[L E]|[L E]]; rewrite E; split; lra.
    + split; lra.
Qed.

Lemma adaptDifficulty_half_step_witness :
  let progress := PatternFactory.getDefaultProgress 0 "user" PatternFactory.visual_sequence in
  PatternProgress.currentDifficulty progress - (1 # 2)
    <= BasePattern.adaptDifficulty progress [rapidAttempt false]
  /\ BasePattern.adaptDifficulty progress [rapidAttempt false]
     <= PatternProgress.currentDifficulty progress + (1 # 2).
Proof.
  cbv zeta.
  apply (adaptDifficulty_half_step
           (PatternFactory.getDefaultProgress 0 "user" PatternFactory.visual_sequence)
           [rapidAttempt false]);
    vm_compute; discriminate.
Defined.

Lemma filter_none {A : Type} (f : A -> bool) (l : list A) :
  (forall a, In a l -> f a = false) -> filter f l = [].
Proof.
  induction l as [|a l IH]; intro H; [reflexivity|].
  cbn [filter]. rewrite (H a) by (left; reflexivity).
  apply IH. intros b Hb. apply H. right. exact Hb.
Qed.

Lemma filter_all {A : Type} (f : A -> bool) (l : list A) :
  (forall a, In a l -> f a = true) -> filter f l = l.
Proof.
  induction l as [|a l IH]; intro H; [reflexivity|].
  cbn [filter]. rewrite (H a) by (left; reflexivity).
  f_equal. apply IH. intros b Hb. apply H. right. exact Hb.
Qed.

(** A history without a single successful attempt lowers the difficulty by
    half a point, down to 1 at the least. *)
Theorem adaptDifficulty_lowers_without_success :
  forall (progress : PatternProgress.t) (attempts : list PatternAttempt.t),
    attempts <> [] ->
    (forall a, In a attempts -> successful a = false) ->
    BasePattern.adaptDifficulty progress attempts
    = Qmax 1 (PatternProgress.currentDifficulty progress - (1 # 2)).
Proof.
  intros progress attempts Hne Hnone.
  rewrite adaptDifficulty_ladder. unfold BasePattern.difficultyLadder.
  cbv zeta. rewrite emergency_guard_false.
  assert (Hrate : BasePattern.calculateSuccessRate attempts == 0).
  { unfold BasePattern.calculateSuccessRate.
    destruct attempts as [|a attempts]; [congruence|].
    cbn [length Nat.eqb].
    rewrite (filter_none (fun a0 => PatternAttempt.isCorrect a0
               || Qltb (7 # 10) (PatternAttempt.confidence a0))) by exact Hnone.
    unfold Qdiv. change (js_length []) with 0. ring. }
  assert (H1 : Qltb (8 # 10) (BasePattern.calculateSuccessRate attempts) = false)
    by (apply Qltb_ge; lra).
  assert (H2 : Qltb (BasePattern.calculateSuccessRate attempts) (4 # 10) = true)
    by (apply Qltb_lt; lra).
  rewrite H1, H2. reflexivity.
Qed.

Lemma adaptDifficulty_lowers_without_success_witness :
  BasePattern.adaptDifficulty
    (PatternFactory.getDefaultProgress 0 "user" PatternFactory.visual_sequence)
    [rapidAttempt false]
  = Qmax 1 (1 - (1 # 2)).
Proof.
  apply (adaptDifficulty_lowers_without_success
           (PatternFactory.getDefaultProgress 0 "user" PatternFactory.visual_sequence)
           [rapidAttempt false]).
  - discriminate.
  - intros a [<-|[]]. reflexivity.
Defined.

Lemma frustrationScore_calm (attempts : list PatternAttempt.t) :
  (forall a, In a attempts ->
     PatternAttempt.isCorrect a = true
     /\ 3 <= PatternAttempt.timeSpent a
     /\ (PatternAttempt.hintsUsed a <= 2)%Z) ->
  forall s, fold_left BasePattern.frustrationStep attempts s = s.
Proof.
  induction attempts as [|a attempts IH]; intros Hcalm s; [reflexivity|].
  cbn [fold_left].
  destruct (Hcalm a (or_introl eq_refl)) as [Hc [Ht Hh]].
  assert (Hstep : BasePattern.frustrationStep s a = s).
  { unfold BasePattern.frustrationStep.
    assert (E1 : Qltb (PatternAttempt.timeSpent a) 3 = false) by (apply Qltb_ge; exact Ht).
    assert (E2 : (PatternAttempt.hintsUsed a >? 2)%Z = false) by lia.
    rewrite E1, E2, Hc. reflexivity. }
  rewrite Hstep. apply IH. intros b Hb. apply Hcalm. right. exact Hb.
Qed.

(** A non-empty history of correct, unhurried attempts (three seconds or
    more, at most two hints each) raises the difficulty by half a point, up
    to 10 at the most. *)
Theorem adaptDifficulty_raises_on_calm_success :
  forall (progress : PatternProgress.t) (attempts : list PatternAttempt.t),
    attempts <> [] ->
    (forall a, In a attempts ->
       PatternAttempt.isCorrect a = true
       /\ 3 <= PatternAttempt.timeSpent a
       /\ (PatternAttempt.hintsUsed a <= 2)%Z) ->
    BasePattern.adaptDifficulty progress attempts
    = Qmin 10 (PatternProgress.currentDifficulty progress + (1 # 2)).
Proof.
  intros progress attempts Hne Hcalm.
  rewrite adaptDifficulty_ladder. unfold BasePattern.difficultyLadder.
  cbv zeta. rewrite emergency_guard_false.
  destruct attempts as [|a attempts]; [congruence|].
  pose proof (js_length_positive a attempts) as Hn.
  assert (Hrate : BasePattern.calculateSuccessRate (a :: attempts) == 1).
  { unfold BasePattern.calculateSuccessRate. cbn [length Nat.eqb].
    rewrite (filter_all (fun a0 => PatternAttempt.isCorrect a0
               || Qltb (7 # 10) (PatternAttempt.confidence a0))).
    - field. lra.
    - intros b Hb. destruct (Hcalm b Hb) as [Hc _]. rewrite Hc. reflexivity. }
  assert (Hfr : BasePattern.calculateFrustrationLevel (a :: attempts) == 0).
  { unfold BasePattern.calculateFrustrationLevel. cbn [length Nat.eqb].
    rewrite (frustrationScore_calm (a :: attempts) Hcalm 0).
    rewrite Q.min_r; [field; lra|].
    apply Qle_shift_div_r; [exact Hn|]. lra. }
  assert (H1 : Qltb (8 # 10) (BasePattern.calculateSuccessRate (a :: attempts)) = true)
    by (apply Qltb_lt; lra).
  assert (H2 : Qltb (BasePattern.calculateFrustrationLevel (a :: attempts)) (3 # 10) = true)
    by (apply Qltb_lt; lra).
  rewrite H1, H2. reflexivity.
Qed.

Lemma adaptDifficulty_raises_on_calm_success_witness :
  BasePattern.adaptDifficulty
    (PatternFactory.getDefaultProgress 0 "user" PatternFactory.visual_sequence)
    [PatternAttempt.mk "attempt" 0 [] true 1 12 0 systematic]
  = Qmin 10 (1 + (1 # 2)).
Proof.
  apply (adaptDifficulty_raises_on_calm_success
           (PatternFactory.getDefaultProgress 0 "user" PatternFactory.visual_sequence)
           [PatternAttempt.mk "attempt" 0 [] true 1 12 0 systematic]).
  - discriminate.
  - intros a [<-|[]]. split; [reflexivity|]. split; [vm_compute; discriminate|].
    vm_compute; discriminate.
Defined.

(** ** Progress records *)

Lemma calculateSuccessRate_single (a : PatternAttempt.t) :
  BasePattern.calculateSuccessRate [a] == (if successful a then 1 else 0).
Proof.
  unfold BasePattern.calculateSuccessRate, successful. cbn [length Nat.eqb filter].
  destruct (PatternAttempt.isCorrect a || Qltb (7 # 10) (PatternAttempt.confidence a));
    reflexivity.
Qed.

(** [updateProgress] counts the attempt, keeps the successes within the
    total, stamps the clock, and leaves the difficulty alone: raising or
    lowering it is left to whoever calls [adaptDifficulty]. *)
Theorem updateProgress_counters :
  forall (now : Z) (progress : PatternProgress.t) (attempt : PatternAttempt.t),
    (0 <= PatternProgress.successfulAttempts progress
       <= PatternProgress.totalAttempts progress)%Z ->
    let updated := BasePattern.updateProgress now progress attempt in
    PatternProgress.totalAttempts updated
      = (PatternProgress.totalAttempts progress + 1)%Z
    /\ (0 <= PatternProgress.successfulAttempts updated
          <= PatternProgress.totalAttempts updated)%Z
    /\ PatternProgress.successfulAttempts updated
       = (PatternProgress.successfulAttempts progress
          + (if successful attempt then 1 else 0))%Z
    /\ PatternProgress.lastPlayed updated = now
    /\ PatternProgress.currentDifficulty updated
       = PatternProgress.currentDifficulty progress.
Proof.
  intros now progress attempt Hinv. cbv zeta.
  unfold BasePattern.updateProgress, successful.
  cbn [PatternProgress.totalAttempts PatternProgress.successfulAttempts
       PatternProgress.lastPlayed PatternProgress.currentDifficulty].
  destruct (PatternAttempt.isCorrect attempt
            || Qltb (7 # 10) (PatternAttempt.confidence attempt));
    repeat split; lia.
Qed.

Lemma updateProgress_counters_witness :
  let progress := PatternFactory.getDefaultProgress 0 "user" PatternFactory.visual_sequence in
  let updated := BasePattern.updateProgress 7 progress (rapidAttempt true) in
  PatternProgress.totalAttempts updated = 1%Z
  /\ PatternProgress.successfulAttempts updated = 1%Z.
Proof.
  cbv zeta.
  destruct (updateProgress_counters 7
              (PatternFactory.getDefaultProgress 0 "user" PatternFactory.visual_sequence)
              (rapidAttempt true)) as [Ht [_ [Hs _]]].
  - cbn. lia.
  - split; [exact Ht|exact Hs].
Defined.

(** The mastery level stays between 0 and 1; a successful attempt moves it
    a tenth of the way towards 1 and never lowers it, any other attempt
    scales it down by 0.9. *)
Theorem updateProgress_mastery :
  forall (now : Z) (progress : PatternProgress.t) (attempt : PatternAttempt.t),
    0 <= PatternProgress.masteryLevel progress ->
    PatternProgress.masteryLevel progress <= 1 ->
    let before := PatternProgress.masteryLevel progress in
    let after :=
      PatternProgress.masteryLevel (BasePattern.updateProgress now progress attempt) in
    0 <= after /\ after <= 1
    /\ (if successful attempt
        then after == before + (1 # 10) * (1 - before) /\ before <= after
        else after == (9 # 10) * before /\ after <= before).
Proof.
  intros now progress attempt Hlo Hhi. cbv zeta.
  unfold BasePattern.updateProgress. cbn [PatternProgress.masteryLevel].
  set (m := PatternProgress.masteryLevel progress) in *.
  pose proof (calculateSuccessRate_single attempt) as Hr.
  set (r := BasePattern.calculateSuccessRate [attempt]) in *.
  destruct (successful attempt).
  - assert (Hle : m * (9 # 10) + r * (1 # 10) <= 1) by (rewrite Hr; lra).
    rewrite (Q.min_r _ _ Hle). rewrite Hr. repeat split; lra.
  - assert (Hle : m * (9 # 10) + r * (1 # 10) <= 1) by (rewrite Hr; lra).
    rewrite (Q.min_r _ _ Hle). rewrite Hr. repeat split; lra.
Qed.

Lemma updateProgress_mastery_witness :
  let progress := PatternFactory.getDefaultProgress 0 "user" PatternFactory.visual_sequence in
  let after :=
    PatternProgress.masteryLevel (BasePattern.updateProgress 7 progress (rapidAttempt true)) in
  0 <= after /\ after <= 1.
Proof.
  cbv zeta.
  destruct (updateProgress_mastery 7
              (PatternFactory.getDefaultProgress 0 "user" PatternFactory.visual_sequence)
              (rapidAttempt true)) as [H0 [H1 _]].
  - vm_compute. discriminate.
  - vm_compute. discriminate.
  - split; [exact H0|exact H1].
Defined.

Lemma recordAttempts_counts (history : list (Z * PatternAttempt.t)) :
  forall progress : PatternProgress.t,
    let updated := recordAttempts progress history in
    PatternProgress.totalAttempts updated
      = (PatternProgress.totalAttempts progress + Z.of_nat (length history))%Z
    /\ PatternProgress.successfulAttempts updated
       = (PatternProgress.successfulAttempts progress
          + Z.of_nat (length (filter successful (map snd history))))%Z.
Proof.
  induction history as [|[now a] history IH]; intro progress; cbv zeta.
  - cbn. split; lia.
  - unfold recordAttempts. cbn [fold_left fst snd].
    fold (recordAttempts (BasePattern.updateProgress now progress a) history).
    set (p1 := BasePattern.updateProgress now progress a).
    assert (Ht1 : PatternProgress.totalAttempts p1
                  = (PatternProgress.totalAttempts progress + 1)%Z) by reflexivity.
    assert (Hs1 : PatternProgress.successfulAttempts p1
                  = (PatternProgress.successfulAttempts progress
                     + (if successful a then 1 else 0))%Z).
    { unfold p1, BasePattern.updateProgress, successful.
      cbn [PatternProgress.successfulAttempts].
      destruct (PatternAttempt.isCorrect a || Qltb (7 # 10) (PatternAttempt.confidence a));
        lia. }
    destruct (IH p1) as [Ht Hs].
    split.
    + rewrite Ht, Ht1. cbn [length]. lia.
    + rewrite Hs, Hs1. cbn [map snd filter].
      destruct (successful a); cbn [length]; lia.
Qed.

(** Starting from a record without attempts (as [getDefaultProgress] gives),
    [updateProgress] applied to each attempt of a history leaves the number
    of attempts and the number of successful ones; and after the first
    attempt [averageTimeToSolve] is the time of that attempt. *)
Theorem recordAttempts_statistics :
  forall (progress : PatternProgress.t) (history : list (Z * PatternAttempt.t)),
    PatternProgress.totalAttempts progress = 0%Z ->
    PatternProgress.successfulAttempts progress = 0%Z ->
    let updated := recordAttempts progress history in
    PatternProgress.totalAttempts updated = Z.of_nat (length history)
    /\ PatternProgress.successfulAttempts updated
       = Z.of_nat (length (filter successful (map snd history)))
    /\ (forall now attempt rest,
          history = (now, attempt) :: rest ->
          PatternProgress.averageTimeToSolve
            (BasePattern.updateProgress now progress attempt)
          == PatternAttempt.timeSpent attempt).
Proof.
  intros progress history Ht0 Hs0. cbv zeta.
  destruct (recordAttempts_counts history progress) as [Ht Hs].
  rewrite Ht0 in Ht. rewrite Hs0 in Hs.
  split; [rewrite Ht; lia|]. split; [rewrite Hs; lia|].
  intros now attempt rest _.
  unfold BasePattern.updateProgress. cbn [PatternProgress.averageTimeToSolve].
  rewrite Ht0. change (inject_Z (0 + 1 - 1)) with 0.
  change (inject_Z (0 + 1)) with 1. field.
Qed.

Lemma recordAttempts_statistics_witness :
  let updated :=
    recordAttempts
      (PatternFactory.getDefaultProgress 0 "user" PatternFactory.visual_sequence)
      [(1%Z, rapidAttempt true); (2%Z, rapidAttempt false)] in
  PatternProgress.totalAttempts updated = 2%Z
  /\ PatternProgress.successfulAttempts updated = 1%Z
  /\ PatternProgress.averageTimeToSolve
       (BasePattern.updateProgress 1
          (PatternFactory.getDefaultProgress 0 "user" PatternFactory.visual_sequence)
          (rapidAttempt true))
     == 3 # 2.
Proof.
  cbv zeta.
  destruct (recordAttempts_statistics
              (PatternFactory.getDefaultProgress 0 "user" PatternFactory.visual_sequence)
              [(1%Z, rapidAttempt true); (2%Z, rapidAttempt false)])
    as [Ht [Hs Ha]].
  - reflexivity.
  - reflexivity.
  - split; [exact Ht|]. split; [exact Hs|].
    rewrite (Ha 1%Z (rapidAttempt true) [(2%Z, rapidAttempt false)] eq_refl).
    reflexivity.
Defined.

(** ** How much of the history the classifiers read *)

Lemma slice_last_app {A : Type} (n : nat) (old recent : list A) :
  length recent = n -> slice_last n (old ++ recent) = recent.
Proof.
  intro Hn. unfold slice_last. rewrite length_app, Hn.
  replace (length old + n - n)%nat with (length old) by lia.
  rewrite skipn_app, skipn_all, Nat.sub_diag. reflexivity.
Qed.

Lemma slice_last_length_le {A : Type} (n : nat) (l : list A) :
  (length (slice_last n l) <= length l)%nat.
Proof. unfold slice_last. rewrite length_skipn. lia. Qed.

(** The base-class classifier reads the last five attempts only: whatever
    came before them does not change its answer. *)
Theorem base_detectInteractionPattern_last_five :
  forall older recent : list PatternAttempt.t,
    length recent = 5%nat ->
    BasePattern.detectInteractionPattern (older ++ recent)
    = BasePattern.detectInteractionPattern recent.
Proof.
  intros older recent Hlen. unfold BasePattern.detectInteractionPattern.
  rewrite (slice_last_app 5 older recent Hlen).
  rewrite (slice_last_all 5 recent) by lia.
  rewrite length_app, Hlen.
  replace (length older + 5 <? 3)%nat with false by (symmetry; apply Nat.ltb_ge; lia).
  reflexivity.
Qed.

Lemma base_detectInteractionPattern_last_five_witness :
  BasePattern.detectInteractionPattern ([rapidAttempt true] ++ rapidHistory)
  = BasePattern.detectInteractionPattern rapidHistory.
Proof.
  apply (base_detectInteractionPattern_last_five [rapidAttempt true] rapidHistory).
  reflexivity.
Defined.

(** The base-class classifier answers [frustrated] only on a history of at
    least four attempts, more than three of whose last five are incorrect. *)
Theorem base_frustrated_needs_four_failures :
  forall attempts : list PatternAttempt.t,
    BasePattern.detectInteractionPattern attempts = frustrated ->
    (4 <= length attempts)%nat
    /\ (4 <= length (filter (fun a => negb (PatternAttempt.isCorrect a))
                            (slice_last 5 attempts)))%nat.
Proof.
  intros attempts H. unfold BasePattern.detectInteractionPattern in H.
  destruct (length attempts <? 3)%nat; [discriminate|].
  unfold BasePattern.hasConsistentStrategy, BasePattern.hasHighVarianceInApproach in H.
  match type of H with (if ?r && ?m then _ else _) = _ =>
    destruct r; destruct m eqn:Em; try discriminate H end.
  apply Nat.ltb_lt in Em.
  split; [|lia].
  pose proof (filter_length_le (fun a => negb (PatternAttempt.isCorrect a))
                (slice_last 5 attempts)).
  pose proof (slice_last_length_le 5 attempts). lia.
Qed.

Lemma base_frustrated_needs_four_failures_witness :
  (4 <= length rapidHistory)%nat
  /\ (4 <= length (filter (fun a => negb (PatternAttempt.isCorrect a))
                          (slice_last 5 rapidHistory)))%nat.
Proof.
  apply (base_frustrated_needs_four_failures rapidHistory). reflexivity.
Defined.

(** The engine's own classifier reads the last three attempts only. *)
Theorem detectInteractionPattern_last_three :
  forall older recent : list PatternAttempt.t,
    length recent = 3%nat ->
    VisualSequencePattern.detectInteractionPattern (older ++ recent)
    = VisualSequencePattern.detectInteractionPattern recent.
Proof.
  intros older recent Hlen. unfold VisualSequencePattern.detectInteractionPattern.
  rewrite (slice_last_app 3 older recent Hlen).
  rewrite (slice_last_all 3 recent) by lia.
  rewrite length_app, Hlen.
  replace (length older + 3 =? 0)%nat with false by (symmetry; apply Nat.eqb_neq; lia).
  reflexivity.
Qed.

Lemma detectInteractionPattern_last_three_witness :
  VisualSequencePattern.detectInteractionPattern
    ([rapidAttempt true; rapidAttempt true]
     ++ [rapidAttempt false; rapidAttempt false; rapidAttempt false])
  = VisualSequencePattern.detectInteractionPattern
      [rapidAttempt false; rapidAttempt false; rapidAttempt false].
Proof.
  apply (detectInteractionPattern_last_three
           [rapidAttempt true; rapidAttempt true]
           [rapidAttempt false; rapidAttempt false; rapidAttempt false]).
  reflexivity.
Defined.

Lemma detectInteractionPattern_frustrated (attemptHistory : list PatternAttempt.t) :
  VisualSequencePattern.detectInteractionPattern attemptHistory = frustrated
  <-> exists a, In a (slice_last 3 attemptHistory)
                /\ PatternAttempt.interactionPattern a = frustrated.
Proof.
  unfold VisualSequencePattern.detectInteractionPattern.
  destruct attemptHistory as [|a0 h0].
  - cbn. split; [discriminate|]. intros [a [[] _]].
  - set (h := a0 :: h0). change (length h =? 0)%nat with false. cbv iota zeta.
    destruct (existsb _ (slice_last 3 h)) eqn:E.
    + split; [|reflexivity]. intros _.
      apply existsb_exists in E. destruct E as [a [Ha Etag]].
      exists a. split; [exact Ha|].
      destruct (PatternAttempt.interactionPattern a); try discriminate Etag; reflexivity.
    + split.
      * destruct (forallb _ _); [discriminate|].
        match goal with |- (if ?c then _ else _) = _ -> _ => destruct c end;
          intro Hd; discriminate Hd.
      * intros [a [Ha Etag]]. exfalso.
        assert (Hex : existsb (fun a => InteractionPattern_eqb
                          (PatternAttempt.interactionPattern a) frustrated)
                        (slice_last 3 h) = true).
        { apply existsb_exists. exists a. split; [exact Ha|]. rewrite Etag. reflexivity. }
        congruence.
Qed.

(** [getHint] gives the calming hint, the only one that names no property,
    exactly when one of the last three attempts is tagged [frustrated];
    every other hint is built for the [size] property, whatever rule the
    instance's config was generated with. *)
Theorem getHint_calming :
  forall (self : VisualSequencePattern.t) (attemptHistory : list PatternAttempt.t),
    (VisualSequencePattern.getHint self attemptHistory
       = VisualSequencePattern.getCalmingHint
     <-> exists a, In a (slice_last 3 attemptHistory)
                   /\ PatternAttempt.interactionPattern a = frustrated)
    /\ In (VisualSequencePattern.getHint self attemptHistory)
          [ VisualSequencePattern.getCalmingHint;
            "Focus on the size property. What mathematical relationship do you notice?"%string;
            "Try looking at the pattern step by step. What happens to each size as you move from left to right?"%string;
            "Experiment with different possibilities. What would make sense to continue this pattern?"%string ].
Proof.
  intros self h. split.
  - rewrite <- detectInteractionPattern_frustrated.
    unfold VisualSequencePattern.getHint.
    destruct (VisualSequencePattern.detectInteractionPattern h);
      split; intro H; try reflexivity; try discriminate H;
      vm_compute in H; discriminate H.
  - unfold VisualSequencePattern.getHint.
    destruct (VisualSequencePattern.detectInteractionPattern h); cbn; tauto.
Qed.

(** ** What [generate] returns *)

Lemma length_mapi_from {A B : Type} (f : A -> Z -> B) (l : list A) :
  forall index, length (mapi_from f index l) = length l.
Proof.
  induction l as [|a l IH]; intro index; [reflexivity|].
  cbn [mapi_from length]. rewrite IH. reflexivity.
Qed.

Lemma length_upto (n : Z) : length (upto n) = Z.to_nat n.
Proof. unfold upto. rewrite length_map, length_seq. reflexivity. Qed.

Lemma Qfloor_half (n : Z) : Qfloor (inject_Z n / 2) = (n / 2)%Z.
Proof.
  unfold Qdiv, Qmult, Qinv, inject_Z, Qfloor. cbn.
  rewrite Z.mul_1_r. reflexivity.
Qed.

Lemma half_nonneg (difficulty : Q) :
  0 <= difficulty -> (0 <= Qfloor (difficulty / 2))%Z.
Proof.
  intro H. change 0%Z with (Qfloor 0). apply Qfloor_resp_le.
  apply Qle_shift_div_l; [reflexivity|]. lra.
Qed.

Lemma ruleIndex_bounds (difficulty u : Q) :
  (0 <= Qfloor (difficulty / 2))%Z -> 0 <= u -> u < 1 ->
  (0 <= ruleIndex difficulty u
   < Z.min (Z.of_nat (length (VisualSequencePattern.rulePool difficulty)))
           (1 + Qfloor (difficulty / 2)))%Z.
Proof.
  intros Hhalf Hu0 Hu1. unfold ruleIndex.
  pose proof (rulePool_length difficulty) as Hlen.
  set (m := Z.min _ _).
  assert (Hm : (1 <= m)%Z) by (unfold m; lia).
  assert (Hm' : 0 < inject_Z m).
  { change 0 with (inject_Z 0). rewrite <- Zlt_Qlt. lia. }
  split.
  - change 0%Z with (Qfloor 0). apply Qfloor_resp_le.
    apply Qmult_le_0_compat; [exact Hu0|apply Qlt_le_weak; exact Hm'].
  - rewrite Zlt_Qlt.
    apply Qle_lt_trans with (u * inject_Z m); [apply Qfloor_le|].
    setoid_replace (inject_Z m) with (1 * inject_Z m) at 2 by ring.
    apply Qmult_lt_compat_r; assumption.
Qed.

Lemma sequenceLength_configFor (self : VisualSequencePattern.t) (rule : SequenceRule.t) :
  sequenceLength (configFor self rule)
  = Z.max 0 (Z.min (3 + Qfloor (PatternConfig.difficulty
                                  (VisualSequencePattern.config self) / 2)) 8).
Proof.
  unfold sequenceLength, configFor. cbn [PatternConfig.elements].
  unfold VisualSequencePattern.maskElements, mapi,
    VisualSequencePattern.generateSequence.
  rewrite length_mapi_from, length_map, length_upto. lia.
Qed.

(** From a configured difficulty of 0 or more, [generate] returns a
    sequence of [min(3 + floor(difficulty / 2), 8)] elements: never fewer
    than three, never more than eight. *)
Theorem generate_sequence_length :
  forall w : VisualSequencePattern.World,
    0 <= PatternConfig.difficulty
           (VisualSequencePattern.config (VisualSequencePattern.this w)) ->
    0 <= VisualSequencePattern.entropy w (VisualSequencePattern.drawn w) ->
    VisualSequencePattern.entropy w (VisualSequencePattern.drawn w) < 1 ->
    exists cfg w',
      VisualSequencePattern.generate w = (Normal cfg, w')
      /\ sequenceLength cfg
         = Z.min (3 + Qfloor (PatternConfig.difficulty
                     (VisualSequencePattern.config (VisualSequencePattern.this w)) / 2)) 8
      /\ (3 <= sequenceLength cfg <= 8)%Z.
Proof.
  intros w Hd Hu0 Hu1.
  pose proof (half_nonneg _ Hd) as Hhalf.
  destruct (generate_returns w Hhalf Hu0 Hu1) as [rule [_ Hgen]].
  exists (configFor (VisualSequencePattern.this w) rule), (afterDraw w).
  split; [exact Hgen|]. rewrite sequenceLength_configFor. lia.
Qed.

Lemma generate_sequence_length_witness :
  exists cfg w',
    VisualSequencePattern.generate (freshWorld 10 (draws [1 # 2])) = (Normal cfg, w')
    /\ sequenceLength cfg = 8%Z
    /\ (3 <= sequenceLength cfg <= 8)%Z.
Proof.
  apply (generate_sequence_length (freshWorld 10 (draws [1 # 2])));
    vm_compute; discriminate || reflexivity.
Defined.

Lemma missingCount_configFor (sequenceLength : Z) (difficulty : Q) :
  Z.of_nat (length (VisualSequencePattern.calculateMissingPositions
                      sequenceLength difficulty))
  = Z.max 1 (Z.min (Qfloor (difficulty / 2)) (sequenceLength - 2)).
Proof.
  unfold VisualSequencePattern.calculateMissingPositions.
  rewrite length_map, length_upto. lia.
Qed.

(** The difficulty [generate] reports lies in [1, 10], is never below a
    configured difficulty of the scale, and is the maximum 10 as soon as the
    configured difficulty reaches 5. *)
Theorem generate_reported_difficulty :
  forall w : VisualSequencePattern.World,
    let configured :=
      PatternConfig.difficulty
        (VisualSequencePattern.config (VisualSequencePattern.this w)) in
    0 <= configured ->
    0 <= VisualSequencePattern.entropy w (VisualSequencePattern.drawn w) ->
    VisualSequencePattern.entropy w (VisualSequencePattern.drawn w) < 1 ->
    exists cfg w',
      VisualSequencePattern.generate w = (Normal cfg, w')
      /\ 1 <= PatternConfig.difficulty cfg
      /\ PatternConfig.difficulty cfg <= 10
      /\ (configured <= 10 -> configured <= PatternConfig.difficulty cfg)
      /\ (5 <= configured -> PatternConfig.difficulty cfg == 10).
Proof.
  intros w configured Hd Hu0 Hu1.
  pose proof (half_nonneg _ Hd) as Hhalf.
  destruct (generate_returns w Hhalf Hu0 Hu1) as [rule [_ Hgen]].
  exists (configFor (VisualSequencePattern.this w) rule), (afterDraw w).
  split; [exact Hgen|].
  unfold configFor. cbn [PatternConfig.difficulty].
  unfold VisualSequencePattern.calculateActualDifficulty.
  rewrite missingCount_configFor, Qfloor_half.
  fold configured.
  set (half := Qfloor (configured / 2)) in *.
  set (len := Z.min (3 + half) 8).
  set (extra := (len / 2 + Z.max 1 (Z.min half (len - 2)))%Z).
  set (bonus := match SequenceRule.type rule with
                | RuleType.increment => configured + 1
                | RuleType.pattern => configured + 3
                | RuleType.alternating => configured + 2
                | RuleType.conditional => configured + 5
                end).
  assert (Hbonus : configured + 1 <= bonus)
    by (unfold bonus; destruct (SequenceRule.type rule); lra).
  assert (Hlen : (3 <= len <= 8)%Z) by (unfold len; lia).
  assert (Hhalflen : (1 <= len / 2)%Z)
    by (apply Z.div_le_lower_bound; lia).
  assert (Hextra : (2 <= extra)%Z) by (unfold extra; lia).
  assert (Hextra' : 2 <= inject_Z extra).
  { change 2 with (inject_Z 2). rewrite <- Zle_Qle. exact Hextra. }
  set (total := bonus + inject_Z extra) in *.
  split; [apply Q.le_max_l|]. split.
  { apply Q.max_lub; [lra|apply Q.le_min_l]. }
  split.
  - intro Hscale.
    apply Qle_trans with (Qmin 10 total); [|apply Q.le_max_r].
    apply Q.min_glb; [exact Hscale|unfold total; lra].
  - intro Hfive.
    assert (Hhalf2 : (2 <= half)%Z).
    { assert (H2 : (Qfloor 2 <= Qfloor (configured / 2))%Z).
      { apply Qfloor_resp_le. apply Qle_shift_div_l; [reflexivity|]. lra. }
      exact H2. }
    assert (Hlen5 : (5 <= len)%Z) by (unfold len; lia).
    assert (Hhalflen2 : (2 <= len / 2)%Z)
      by (apply Z.div_le_lower_bound; lia).
    assert (Hextra4 : 4 <= inject_Z extra).
    { change 4 with (inject_Z 4). rewrite <- Zle_Qle. unfold extra. lia. }
    assert (Hmin : Qmin 10 total == 10) by (apply Q.min_l; unfold total; lra).
    rewrite Hmin. apply Q.max_r. lra.
Qed.

Lemma generate_reported_difficulty_witness :
  exists cfg w',
    VisualSequencePattern.generate (freshWorld 5 (draws [1 # 2])) = (Normal cfg, w')
    /\ 1 <= PatternConfig.difficulty cfg
    /\ PatternConfig.difficulty cfg <= 10
    /\ PatternConfig.difficulty cfg == 10.
Proof.
  destruct (generate_reported_difficulty (freshWorld 5 (draws [1 # 2])))
    as [cfg [w' [Hgen [H1 [H10 [_ Hmax]]]]]];
    try (vm_compute; discriminate || reflexivity).
  exists cfg, w'. split; [exact Hgen|]. split; [exact H1|]. split; [exact H10|].
  apply Hmax. vm_compute. discriminate.
Defined.

Lemma generate_selects (w : VisualSequencePattern.World) :
  let difficulty :=
    PatternConfig.difficulty
      (VisualSequencePattern.config (VisualSequencePattern.this w)) in
  (0 <= Qfloor (difficulty / 2))%Z ->
  0 <= VisualSequencePattern.entropy w (VisualSequencePattern.drawn w) ->
  VisualSequencePattern.entropy w (VisualSequencePattern.drawn w) < 1 ->
  exists (rank : nat) (rule : SequenceRule.t),
    nth_error (VisualSequencePattern.rulePool difficulty) rank = Some rule
    /\ (Z.of_nat rank < 1 + Qfloor (difficulty / 2))%Z
    /\ VisualSequencePattern.generate w
       = (Normal (configFor (VisualSequencePattern.this w) rule), afterDraw w).
Proof.
  intros difficulty Hhalf Hu0 Hu1.
  pose proof (ruleIndex_bounds difficulty _ Hhalf Hu0 Hu1) as Hidx.
  fold difficulty in Hidx.
  set (index := ruleIndex difficulty
                  (VisualSequencePattern.entropy w (VisualSequencePattern.drawn w))) in *.
  destruct (nth_error (VisualSequencePattern.rulePool difficulty) (Z.to_nat index))
    as [rule|] eqn:En.
  - exists (Z.to_nat index), rule. split; [exact En|]. split; [lia|].
    rewrite generate_run. fold difficulty. fold index.
    unfold js_index.
    destruct (index <? 0)%Z eqn:E; [apply Z.ltb_lt in E; lia|].
    rewrite En. reflexivity.
  - apply nth_error_None in En. lia.
Qed.

(** [generate] selects among the first [1 + floor(difficulty / 2)] rules of
    the pool only.  Below difficulty 2 this is the size-increment rule alone,
    so the random number has no influence on the puzzle; the three-shape
    cycle needs difficulty 8 and the conditional rule difficulty 10, although
    both enter the pool above 5. *)
Theorem generate_rule_rank :
  forall w : VisualSequencePattern.World,
    let difficulty :=
      PatternConfig.difficulty
        (VisualSequencePattern.config (VisualSequencePattern.this w)) in
    0 <= difficulty ->
    0 <= VisualSequencePattern.entropy w (VisualSequencePattern.drawn w) ->
    VisualSequencePattern.entropy w (VisualSequencePattern.drawn w) < 1 ->
    exists (rank : nat) (rule : SequenceRule.t),
      nth_error allRules rank = Some rule
      /\ VisualSequencePattern.generate w
         = (Normal (configFor (VisualSequencePattern.this w) rule), afterDraw w)
      /\ (Z.of_nat rank < 1 + Qfloor (difficulty / 2))%Z
      /\ (difficulty < 2 -> rank = 0%nat)
      /\ (difficulty < 8 -> (rank < 4)%nat)
      /\ (difficulty < 10 -> (rank < 5)%nat).
Proof.
  intros w difficulty Hd Hu0 Hu1.
  destruct (generate_selects w (half_nonneg _ Hd) Hu0 Hu1)
    as [rank [rule [Hnth [Hrank Hgen]]]].
  fold difficulty in Hnth, Hrank.
  assert (Hupper : forall bound : Z,
            difficulty < inject_Z (2 * bound) ->
            (Qfloor (difficulty / 2) < bound)%Z).
  { intros bound Hb. rewrite inject_Z_mult in Hb.
    assert (Hq : difficulty / 2 < inject_Z bound).
    { apply Qlt_shift_div_r; [reflexivity|].
      setoid_replace (inject_Z bound * 2) with (inject_Z 2 * inject_Z bound) by ring.
      exact Hb. }
    rewrite Zlt_Qlt. eapply Qle_lt_trans; [apply Qfloor_le|exact Hq]. }
  exists rank, rule. split.
  - unfold VisualSequencePattern.rulePool in Hnth. unfold allRules.
    destruct (Qltb 5 difficulty); [exact Hnth|].
    destruct rank as [|[|[|[|rank]]]]; cbn in Hnth |- *;
      try exact Hnth. destruct rank; discriminate Hnth.
  - split; [exact Hgen|]. split; [exact Hrank|]. split; [|split]; intro Hlt.
    + pose proof (Hupper 1%Z Hlt). lia.
    + pose proof (Hupper 4%Z Hlt). lia.
    + pose proof (Hupper 5%Z Hlt). lia.
Qed.

Lemma generate_rule_rank_witness :
  exists (rank : nat) (rule : SequenceRule.t),
    nth_error allRules rank = Some rule
    /\ VisualSequencePattern.generate (freshWorld 1 (draws [9 # 10]))
       = (Normal (configFor (VisualSequencePattern.this (freshWorld 1 (draws [9 # 10]))) rule),
          afterDraw (freshWorld 1 (draws [9 # 10])))
    /\ rank = 0%nat.
Proof.
  destruct (generate_rule_rank (freshWorld 1 (draws [9 # 10])))
    as [rank [rule [Hnth [Hgen [_ [Hzero _]]]]]];
    try (vm_compute; discriminate || reflexivity).
  exists rank, rule. split; [exact Hnth|]. split; [exact Hgen|].
  apply Hzero. vm_compute. reflexivity.
Defined.

(** Below a configured difficulty of 10 the conditional rule is out of
    reach, and [generate] returns exactly four hints: the opening one, the
    one of the rule, and the two closing ones. *)
Theorem generate_four_hints_below_ten :
  forall w : VisualSequencePattern.World,
    let difficulty :=
      PatternConfig.difficulty
        (VisualSequencePattern.config (VisualSequencePattern.this w)) in
    0 <= difficulty -> difficulty < 10 ->
    0 <= VisualSequencePattern.entropy w (VisualSequencePattern.drawn w) ->
    VisualSequencePattern.entropy w (VisualSequencePattern.drawn w) < 1 ->
    exists cfg w' ruleHint,
      VisualSequencePattern.generate w = (Normal cfg, w')
      /\ PatternConfig.hints cfg =
         [ "Look at how the shapes change from one to the next"%string;
           ruleHint;
           "Try to continue the pattern you see"%string;
           "There might be more than one correct answer"%string ]
      /\ In ruleHint
           [ "Notice how the size is changing step by step"%string;
             "The color follows an alternating pattern"%string;
             "There's a repeating pattern in the shape"%string;
             "Notice how the rotation is changing step by step"%string ].
Proof.
  intros w difficulty Hd Hten Hu0 Hu1.
  destruct (generate_selects w (half_nonneg _ Hd) Hu0 Hu1)
    as [rank [rule [Hnth [Hrank Hgen]]]].
  fold difficulty in Hnth, Hrank.
  assert (Hhalf : (Qfloor (difficulty / 2) < 5)%Z).
  { assert (Hq : difficulty / 2 < inject_Z 5).
    { apply Qlt_shift_div_r; [reflexivity|]. exact Hten. }
    rewrite Zlt_Qlt. eapply Qle_lt_trans; [apply Qfloor_le|exact Hq]. }
  assert (Hr : (rank < 5)%nat) by lia.
  exists (configFor (VisualSequencePattern.this w) rule), (afterDraw w).
  unfold VisualSequencePattern.rulePool in Hnth.
  destruct (Qltb 5 difficulty);
    destruct rank as [|[|[|[|[|rank]]]]]; try lia;
    cbn in Hnth; try discriminate Hnth;
    injection Hnth as <-;
    eexists; (split; [exact Hgen|]); (split; [reflexivity|]); cbn; tauto.
Qed.

Lemma generate_four_hints_below_ten_witness :
  exists cfg w' ruleHint,
    VisualSequencePattern.generate (freshWorld 9 (draws [9 # 10])) = (Normal cfg, w')
    /\ PatternConfig.hints cfg =
       [ "Look at how the shapes change from one to the next"%string;
         ruleHint;
         "Try to continue the pattern you see"%string;
         "There might be more than one correct answer"%string ]
    /\ In ruleHint
         [ "Notice how the size is changing step by step"%string;
           "The color follows an alternating pattern"%string;
           "There's a repeating pattern in the shape"%string;
           "Notice how the rotation is changing step by step"%string ].
Proof.
  apply (generate_four_hints_below_ten (freshWorld 9 (draws [9 # 10])));
    vm_compute; discriminate || reflexivity.
Defined.

(** With a configured difficulty below -2 and a random number other than
    0, the computed rule index is negative, no rule is selected, and
    [generate] throws; so does a [validateSolution] that has to generate. *)
Theorem generate_throws_on_negative_difficulty :
  forall (w : VisualSequencePattern.World) (attempt : list PatternElement.t),
    PatternConfig.difficulty
      (VisualSequencePattern.config (VisualSequencePattern.this w)) < -2 ->
    0 < VisualSequencePattern.entropy w (VisualSequencePattern.drawn w) ->
    VisualSequencePattern.generate w = (Thrown, afterDraw w)
    /\ (VisualSequencePattern.currentSolutions (VisualSequencePattern.this w) = [] ->
        VisualSequencePattern.validateSolution 2 attempt w = (Thrown, afterDraw w)).
Proof.
  intros w attempt Hd Hu.
  assert (Hgen : VisualSequencePattern.generate w = (Thrown, afterDraw w)).
  { rewrite generate_run.
    set (difficulty := PatternConfig.difficulty
           (VisualSequencePattern.config (VisualSequencePattern.this w))) in *.
    set (u := VisualSequencePattern.entropy w (VisualSequencePattern.drawn w)) in *.
    assert (Hhalf : (Qfloor (difficulty / 2) < -1)%Z).
    { assert (Hq : difficulty / 2 < inject_Z (-1)).
      { apply Qlt_shift_div_r; [reflexivity|]. exact Hd. }
      rewrite Zlt_Qlt. eapply Qle_lt_trans; [apply Qfloor_le|exact Hq]. }
    assert (Hneg : (ruleIndex difficulty u < 0)%Z).
    { unfold ruleIndex. set (m := Z.min _ _).
      assert (Hm : (m <= -1)%Z) by (unfold m; lia).
      assert (Hm' : inject_Z m <= inject_Z (-1)) by (rewrite <- Zle_Qle; exact Hm).
      rewrite Zlt_Qlt. eapply Qle_lt_trans; [apply Qfloor_le|].
      change (inject_Z 0) with 0. change (inject_Z (-1)) with (-1) in Hm'.
      setoid_replace (u * inject_Z m) with (- (u * - inject_Z m)) by ring.
      assert (0 < u * - inject_Z m) by (apply Qmult_lt_0_compat; lra).
      lra. }
    unfold js_index. apply Z.ltb_lt in Hneg. rewrite Hneg. reflexivity. }
  split; [exact Hgen|].
  intro Hempty. rewrite (validateSolution_fallback 0) by exact Hempty.
  rewrite Hgen. reflexivity.
Qed.

Lemma generate_throws_on_negative_difficulty_witness :
  VisualSequencePattern.generate (freshWorld (-4) (draws [1 # 2]))
  = (Thrown, afterDraw (freshWorld (-4) (draws [1 # 2]))).
Proof.
  apply (generate_throws_on_negative_difficulty
           (freshWorld (-4) (draws [1 # 2])) []);
    vm_compute; reflexivity.
Defined.

(** ** Masking *)

Lemma nth_error_mapi_from {A B : Type} (f : A -> Z -> B) (l : list A) :
  forall (index : Z) (i : nat),
    nth_error (mapi_from f index l) i
    = option_map (fun a => f a (index + Z.of_nat i)%Z) (nth_error l i).
Proof.
  induction l as [|a l IH]; intros index i.
  - destruct i; reflexivity.
  - destruct i as [|i].
    + cbn. rewrite Z.add_0_r. reflexivity.
    + cbn [mapi_from nth_error]. rewrite IH.
      replace (index + 1 + Z.of_nat i)%Z with (index + Z.of_nat (S i))%Z by lia.
      reflexivity.
Qed.

(** [maskElements] keeps the number and the order of the elements.  An
    element outside the masked positions is returned as it is; a masked one
    loses its shape and takes the placeholder colour, and keeps its id, type,
    position, size, rotation, stroke width and fill. *)
Theorem maskElements_frame :
  forall (elements : list PatternElement.t) (missingPositions : list Z),
    length (VisualSequencePattern.maskElements elements missingPositions)
    = length elements
    /\ forall (i : nat) (element : PatternElement.t),
         nth_error elements i = Some element ->
         exists masked,
           nth_error (VisualSequencePattern.maskElements elements missingPositions) i
           = Some masked
           /\ (includes missingPositions (Z.of_nat i) = false -> masked = element)
           /\ (includes missingPositions (Z.of_nat i) = true ->
               Properties.shape (PatternElement.properties masked) = None
               /\ Properties.color (PatternElement.properties masked)
                  = Some "#E0E0E0"%string)
           /\ PatternElement.id masked = PatternElement.id element
           /\ PatternElement.type masked = PatternElement.type element
           /\ PatternElement.position masked = PatternElement.position element
           /\ Properties.size (PatternElement.properties masked)
              = Properties.size (PatternElement.properties element)
           /\ Properties.rotation (PatternElement.properties masked)
              = Properties.rotation (PatternElement.properties element)
           /\ Properties.strokeWidth (PatternElement.properties masked)
              = Properties.strokeWidth (PatternElement.properties element)
           /\ Properties.fill (PatternElement.properties masked)
              = Properties.fill (PatternElement.properties element).
Proof.
  intros elements missingPositions. split.
  - unfold VisualSequencePattern.maskElements, mapi. apply length_mapi_from.
  - intros i element Hi.
    unfold VisualSequencePattern.maskElements, mapi.
    rewrite nth_error_mapi_from, Hi. cbn [option_map Z.add].
    eexists. split; [reflexivity|].
    destruct (includes missingPositions (Z.of_nat i));
      repeat split; try reflexivity; try congruence;
      intro H; discriminate H.
Qed.

Lemma maskElements_frame_witness :
  exists masked,
    nth_error (VisualSequencePattern.maskElements [circleElement; circleElement] [1%Z]) 1
    = Some masked
    /\ Properties.shape (PatternElement.properties masked) = None
    /\ PatternElement.id masked = PatternElement.id circleElement.
Proof.
  destruct (proj2 (maskElements_frame [circleElement; circleElement] [1%Z])
              1%nat circleElement eq_refl)
    as [masked [Hn [_ [Hm [Hid _]]]]].
  exists masked. split; [exact Hn|]. split; [|exact Hid].
  apply Hm. reflexivity.
Defined.

(** ** Generated elements *)

Lemma js_index_in_range {A : Type} (l : list A) (i : Z) :
  (0 <= i < Z.of_nat (length l))%Z -> exists a, js_index l i = Some a.
Proof.
  intro H. unfold js_index.
  destruct (i <? 0)%Z eqn:E; [apply Z.ltb_lt in E; lia|].
  destruct (nth_error l (Z.to_nat i)) as [a|] eqn:En; [exists a; reflexivity|].
  apply nth_error_None in En. lia.
Qed.

(** Whatever the index and the rule, a generated element has a size between
    1 and 10 and a rotation strictly between -360 and 360; at a position of
    the sequence and under a rule of the pool the rotation is not negative
    and shape and colour are defined. *)
Theorem generateElementProperties_ranges :
  forall (index : Z) (rule : SequenceRule.t),
    let props := VisualSequencePattern.generateElementProperties index rule in
    (exists size rotation : Z,
       Properties.size props = Some (inject_Z size)
       /\ Properties.rotation props = Some (inject_Z rotation)
       /\ (1 <= size <= 10)%Z
       /\ (-360 < rotation < 360)%Z
       /\ ((0 <= index)%Z -> In rule allRules -> (0 <= rotation)%Z))
    /\ ((0 <= index)%Z -> In rule allRules ->
        Properties.shape props <> None /\ Properties.color props <> None).
Proof.
  intros index rule. cbv zeta.
  assert (Hrem : forall a : Z, (-360 < Z.rem a 360 < 360)%Z).
  { intro a. pose proof (Z.rem_bound_abs a 360 ltac:(lia)). lia. }
  assert (Hinc : In rule allRules ->
                 (0 <= integer_or (SequenceRule.increment rule) 45)%Z).
  { intro Hin. unfold allRules in Hin. cbn in Hin.
    repeat (destruct Hin as [<-|Hin]; [cbn; lia|]). destruct Hin. }
  split.
  - unfold VisualSequencePattern.generateElementProperties.
    destruct rule as [type property pat increment condition].
    cbn [SequenceRule.type SequenceRule.property SequenceRule.pattern
         SequenceRule.increment] in *.
    destruct type; destruct property; try destruct pat;
      cbn [Properties.size Properties.rotation];
      first
        [ exists 5%Z, 0%Z; solve [repeat split; try reflexivity; lia]
        | eexists; exists 0%Z;
          split; [reflexivity|]; split; [reflexivity|]; repeat split; lia
        | exists 5%Z; eexists;
          split; [reflexivity|]; split; [reflexivity|];
          split; [lia|]; split; [apply Hrem|];
          intros Hidx Hin; apply Z.rem_nonneg; [lia|];
          apply Z.mul_nonneg_nonneg; [exact Hidx|exact (Hinc Hin)] ].
  - intros Hidx Hin. unfold allRules in Hin. cbn in Hin.
    assert (H2 : (0 <= Z.rem index 2 < 2)%Z) by (apply Z.rem_bound_pos; lia).
    assert (H3 : (0 <= Z.rem index 3 < 3)%Z) by (apply Z.rem_bound_pos; lia).
    repeat (destruct Hin as [<-|Hin]);
      try destruct Hin;
      unfold VisualSequencePattern.generateElementProperties;
      cbn [SequenceRule.type SequenceRule.property SequenceRule.pattern
           Properties.shape Properties.color length Z.of_nat Pos.of_succ_nat
           Pos.succ];
      split; try discriminate.
    + destruct (js_index_in_range VisualSequencePattern.colors (Z.rem index 2))
        as [c Hc]; [cbn; lia|]. rewrite Hc. discriminate.
    + destruct (js_index_in_range ["circle"; "square"]%string (Z.rem index 2))
        as [c Hc]; [cbn; lia|]. rewrite Hc. discriminate.
    + destruct (js_index_in_range ["circle"; "square"; "triangle"]%string (Z.rem index 3))
        as [c Hc]; [cbn; lia|]. rewrite Hc. discriminate.
Qed.

(** ** Solutions of a generated config *)

Lemma generated_configs_checked :
  forallb (fun half =>
    forallb (fun rule => solutionsShapeb half rule && maskedAsComputedb half rule)
            allRules)
    halves = true.
Proof. vm_compute. reflexivity. Qed.

Lemma generated_config_checked (difficulty : Q) (rule : SequenceRule.t) :
  1 <= difficulty -> difficulty <= 10 -> In rule allRules ->
  solutionsShapeb (Qfloor (difficulty / 2)) rule = true
  /\ maskedAsComputedb (Qfloor (difficulty / 2)) rule = true.
Proof.
  intros Hlo Hhi Hin.
  pose proof (half_difficulty_range _ Hlo Hhi) as Hhalf.
  assert (Hh : In (Qfloor (difficulty / 2)) halves) by (unfold halves, In; lia).
  pose proof generated_configs_checked as Hall.
  rewrite forallb_forall in Hall. specialize (Hall _ Hh).
  rewrite forallb_forall in Hall. specialize (Hall rule Hin).
  apply andb_true_iff in Hall. exact Hall.
Qed.

(** On the 1-10 scale the masked positions of the returned config are the
    positions [calculateMissingPositions] computes, and their number is
    [max(1, min(floor(difficulty / 2), length - 2))]. *)
Theorem generate_masked_count :
  forall w : VisualSequencePattern.World,
    let difficulty :=
      PatternConfig.difficulty
        (VisualSequencePattern.config (VisualSequencePattern.this w)) in
    1 <= difficulty -> difficulty <= 10 ->
    0 <= VisualSequencePattern.entropy w (VisualSequencePattern.drawn w) ->
    VisualSequencePattern.entropy w (VisualSequencePattern.drawn w) < 1 ->
    exists cfg w',
      VisualSequencePattern.generate w = (Normal cfg, w')
      /\ maskedPositions cfg
         = VisualSequencePattern.calculateMissingPositions (sequenceLength cfg) difficulty
      /\ Z.of_nat (length (maskedPositions cfg))
         = Z.max 1 (Z.min (Qfloor (difficulty / 2)) (sequenceLength cfg - 2)).
Proof.
  intros w difficulty Hlo Hhi Hu0 Hu1.
  pose proof (half_difficulty_range _ Hlo Hhi) as Hhalf.
  destruct (generate_returns w (proj1 Hhalf) Hu0 Hu1) as [rule [Hin Hgen]].
  apply rulePool_allRules in Hin.
  destruct (generated_config_checked _ rule Hlo Hhi Hin) as [_ Hmask].
  exists (configFor (VisualSequencePattern.this w) rule), (afterDraw w).
  split; [exact Hgen|].
  assert (Hpos : maskedPositions (configFor (VisualSequencePattern.this w) rule)
                 = VisualSequencePattern.calculateMissingPositions
                     (sequenceLength (configFor (VisualSequencePattern.this w) rule))
                     difficulty).
  { rewrite sequenceLength_configFor. fold difficulty.
    replace (Z.max 0 (Z.min (3 + Qfloor (difficulty / 2)) 8))
      with (Z.min (3 + Qfloor (difficulty / 2)) 8) by lia.
    unfold maskedAsComputedb in Hmask.
    destruct (list_eq_dec Z.eq_dec _ _) as [E|]; [|discriminate Hmask].
    exact E. }
  split; [exact Hpos|]. rewrite Hpos. apply missingCount_configFor.
Qed.

Lemma generate_masked_count_witness :
  exists cfg w',
    VisualSequencePattern.generate (freshWorld 10 (draws [1 # 2])) = (Normal cfg, w')
    /\ maskedPositions cfg = [2; 3; 4; 5; 6]%Z.
Proof.
  destruct (generate_masked_count (freshWorld 10 (draws [1 # 2])))
    as [cfg [w' [Hgen [Hpos _]]]];
    try (vm_compute; discriminate || reflexivity).
  exists cfg, w'. split; [exact Hgen|]. rewrite Hpos.
  assert (Hcfg : cfg = fst (match VisualSequencePattern.generate
                                   (freshWorld 10 (draws [1 # 2])) with
                            | (Normal c, w0) => (c, w0)
                            | (_, w0) => (cfg, w0)
                            end)) by (rewrite Hgen; reflexivity).
  rewrite Hcfg. vm_compute. reflexivity.
Defined.

(** On the 1-10 scale the returned config has one or two solutions: the
    canonical one of confidence 1 first, then at most one alternate, of
    confidence 0.8.  No solution has an undefined slot, and each lists one
    element per masked position. *)
Theorem generate_solutions_shape :
  forall w : VisualSequencePattern.World,
    let difficulty :=
      PatternConfig.difficulty
        (VisualSequencePattern.config (VisualSequencePattern.this w)) in
    1 <= difficulty -> difficulty <= 10 ->
    0 <= VisualSequencePattern.entropy w (VisualSequencePattern.drawn w) ->
    VisualSequencePattern.entropy w (VisualSequencePattern.drawn w) < 1 ->
    exists cfg w' primary alternates,
      VisualSequencePattern.generate w = (Normal cfg, w')
      /\ PatternConfig.validSolutions cfg = primary :: alternates
      /\ PatternSolution.confidence primary == 1
      /\ (length alternates <= 1)%nat
      /\ (forall s, In s alternates -> PatternSolution.confidence s == 8 # 10)
      /\ wellFormed (PatternConfig.validSolutions cfg)
      /\ (forall s, In s (PatternConfig.validSolutions cfg) ->
            length (PatternSolution.elements s) = length (maskedPositions cfg)).
Proof.
  intros w difficulty Hlo Hhi Hu0 Hu1.
  pose proof (half_difficulty_range _ Hlo Hhi) as Hhalf.
  destruct (generate_returns w (proj1 Hhalf) Hu0 Hu1) as [rule [Hin Hgen]].
  apply rulePool_allRules in Hin.
  destruct (generated_config_checked _ rule Hlo Hhi Hin) as [Hshape Hmask].
  fold difficulty in Hshape, Hmask.
  set (cfg := configFor (VisualSequencePattern.this w) rule) in *.
  assert (Hmasked : maskedPositions cfg = positionsFor (Qfloor (difficulty / 2))).
  { unfold maskedAsComputedb in Hmask.
    destruct (list_eq_dec Z.eq_dec _ _) as [E|]; [|discriminate Hmask].
    exact E. }
  unfold solutionsShapeb in Hshape.
  change (solutionsFor (Qfloor (difficulty / 2)) rule)
    with (PatternConfig.validSolutions cfg) in Hshape.
  cbv zeta in Hshape.
  apply andb_true_iff in Hshape. destruct Hshape as [Hshape Hconf].
  apply andb_true_iff in Hshape. destruct Hshape as [Hcount Hslots].
  destruct (PatternConfig.validSolutions cfg) as [|primary alternates] eqn:Esol;
    [discriminate Hconf|].
  apply andb_true_iff in Hconf. destruct Hconf as [Hone Halt].
  exists cfg, (afterDraw w), primary, alternates.
  split; [exact Hgen|]. split; [exact Esol|].
  split; [apply Qeq_bool_iff; exact Hone|].
  split.
  { apply Nat.eqb_eq in Hcount. cbn [length] in Hcount.
    destruct (match SequenceRule.type rule with
              | RuleType.pattern => true | _ => false end); lia. }
  split.
  { intros s Hs. rewrite forallb_forall in Halt. apply Qeq_bool_iff. apply Halt, Hs. }
  rewrite forallb_forall in Hslots. unfold wellFormed. rewrite Esol. split.
  - intros s Hs slot Hslot Hnone.
    specialize (Hslots s Hs). apply andb_true_iff in Hslots.
    destruct Hslots as [_ Hdef]. rewrite forallb_forall in Hdef.
    specialize (Hdef slot Hslot). rewrite Hnone in Hdef. discriminate Hdef.
  - intros s Hs. specialize (Hslots s Hs). apply andb_true_iff in Hslots.
    destruct Hslots as [Hlen _]. apply Nat.eqb_eq in Hlen.
    rewrite Hmasked. exact Hlen.
Qed.

Lemma generate_solutions_shape_witness :
  exists cfg w' primary alternates,
    VisualSequencePattern.generate (freshWorld 4 (draws [9 # 10])) = (Normal cfg, w')
    /\ PatternConfig.validSolutions cfg = primary :: alternates
    /\ PatternSolution.confidence primary == 1
    /\ (length alternates <= 1)%nat.
Proof.
  destruct (generate_solutions_shape (freshWorld 4 (draws [9 # 10])))
    as [cfg [w' [primary [alternates [Hgen [Hsol [Hone [Hlen _]]]]]]]];
    try (vm_compute; discriminate || reflexivity).
  exists cfg, w', primary, alternates. repeat split; assumption.
Defined.

(** ** Matching and scoring *)

Lemma option_string_eqb_refl (a : option string) : option_string_eqb a a = true.
Proof. destruct a as [s|]; [apply String.eqb_refl|reflexivity]. Qed.

Lemma option_string_eqb_sym (a b : option string) :
  option_string_eqb a b = option_string_eqb b a.
Proof. destruct a, b; try reflexivity. apply String.eqb_sym. Qed.

Lemma elementsMatch_refl (a : PatternElement.t) :
  VisualSequencePattern.elementsMatch a (Some a) = Normal true.
Proof.
  unfold VisualSequencePattern.elementsMatch.
  rewrite !option_string_eqb_refl. cbn [andb].
  assert (H : Qle_bool
                (Qabs (number_or (Properties.size (PatternElement.properties a)) 5
                       - number_or (Properties.size (PatternElement.properties a)) 5))
                1 = true).
  { apply Qle_bool_iff. apply Qabs_Qle_condition. split; lra. }
  rewrite H. reflexivity.
Qed.

(** Two elements match when shape and colour are equal and the sizes differ
    by at most 1, a missing or zero size counting as 5.  The relation is
    reflexive and symmetric; id, type, position, rotation, stroke width and
    fill play no part in it. *)
Theorem elementsMatch_symmetric :
  forall a b : PatternElement.t,
    VisualSequencePattern.elementsMatch a (Some a) = Normal true
    /\ VisualSequencePattern.elementsMatch a (Some b)
       = VisualSequencePattern.elementsMatch b (Some a)
    /\ (Properties.shape (PatternElement.properties a)
          = Properties.shape (PatternElement.properties b) ->
        Properties.color (PatternElement.properties a)
          = Properties.color (PatternElement.properties b) ->
        Properties.size (PatternElement.properties a)
          = Properties.size (PatternElement.properties b) ->
        VisualSequencePattern.elementsMatch a (Some b) = Normal true).
Proof.
  intros a b. split; [apply elementsMatch_refl|]. split.
  - unfold VisualSequencePattern.elementsMatch.
    rewrite (option_string_eqb_sym (Properties.shape (PatternElement.properties a))).
    rewrite (option_string_eqb_sym (Properties.color (PatternElement.properties a))).
    rewrite (Qabs_Qminus (number_or (Properties.size (PatternElement.properties a)) 5)).
    reflexivity.
  - intros Hshape Hcolor Hsize.
    pose proof (elementsMatch_refl b) as Hb.
    unfold VisualSequencePattern.elementsMatch in *.
    rewrite Hshape, Hcolor, Hsize. exact Hb.
Qed.

Lemma countCorrect_bounds (attempt : list PatternElement.t) :
  forall (solution : list (option PatternElement.t)) (correctElements : Z),
    (forall slot, In slot solution -> slot <> None) ->
    exists n,
      VisualSequencePattern.countCorrect attempt solution correctElements = Normal n
      /\ (correctElements <= n <= correctElements + Z.of_nat (length attempt))%Z.
Proof.
  induction attempt as [|a attempt IH]; intros solution c Hdef.
  - exists c. split; [reflexivity|]. cbn. lia.
  - destruct solution as [|[b|] solution].
    + exists c. split; [reflexivity|]. lia.
    + cbn [VisualSequencePattern.countCorrect].
      unfold VisualSequencePattern.elementsMatch. cbn [completion_bind].
      match goal with |- context [if ?m then _ else _] => set (matched := m) end.
      destruct (IH solution (if matched then c + 1 else c)%Z) as [n [Hn Hb]].
      { intros slot Hs. apply Hdef. right. exact Hs. }
      exists n. split; [exact Hn|]. cbn [length]. destruct matched; lia.
    + exfalso. apply (Hdef None); [left; reflexivity|reflexivity].
Qed.

Lemma calculateSolutionConfidence_range (attempt : list PatternElement.t)
    (solution : list (option PatternElement.t)) :
  (forall slot, In slot solution -> slot <> None) ->
  exists q,
    VisualSequencePattern.calculateSolutionConfidence attempt solution = Normal q
    /\ 0 <= q /\ q <= 1.
Proof.
  intro Hdef. unfold VisualSequencePattern.calculateSolutionConfidence.
  destruct (Nat.eqb_spec (length attempt) (length solution)) as [E|E];
    cbn [negb]; [|exists 0; split; [reflexivity|split; lra]].
  destruct (countCorrect_bounds attempt solution 0%Z Hdef) as [n [Hn Hb]].
  rewrite Hn. cbn [completion_bind]. eexists. split; [reflexivity|].
  destruct solution as [|slot solution].
  - assert (n = 0%Z) by (rewrite E in Hb; cbn in Hb; lia). subst n.
    cbn. split; discriminate.
  - pose proof (js_length_positive slot solution) as Hpos.
    assert (H0 : 0 <= inject_Z n).
    { change 0 with (inject_Z 0). rewrite <- Zle_Qle. lia. }
    assert (H1 : inject_Z n <= js_length (slot :: solution)).
    { unfold js_length. rewrite <- Zle_Qle. rewrite <- E. lia. }
    split.
    + apply Qle_shift_div_l; [exact Hpos|]. lra.
    + apply Qle_shift_div_r; [exact Hpos|]. lra.
Qed.

(** The best-match loop on well-formed solutions: it returns, the best
    confidence stays in [0, 1], dominates the starting one and every
    per-solution confidence, and is the starting one or one of them. *)
Lemma scanSolutions_best (attempt : list PatternElement.t) :
  forall (solutions : list PatternSolution.t) (bestMatch : VisualSequencePattern.BestMatch.t),
    wellFormed solutions ->
    0 <= VisualSequencePattern.BestMatch.confidence bestMatch ->
    VisualSequencePattern.BestMatch.confidence bestMatch <= 1 ->
    exists best,
      VisualSequencePattern.scanSolutions attempt solutions bestMatch = Normal best
      /\ 0 <= VisualSequencePattern.BestMatch.confidence best
      /\ VisualSequencePattern.BestMatch.confidence best <= 1
      /\ VisualSequencePattern.BestMatch.confidence bestMatch
         <= VisualSequencePattern.BestMatch.confidence best
      /\ (forall s q, In s solutions ->
            VisualSequencePattern.calculateSolutionConfidence attempt
              (PatternSolution.elements s) = Normal q ->
            q <= VisualSequencePattern.BestMatch.confidence best)
      /\ (VisualSequencePattern.BestMatch.confidence best
            = VisualSequencePattern.BestMatch.confidence bestMatch
          \/ exists s, In s solutions
               /\ VisualSequencePattern.calculateSolutionConfidence attempt
                    (PatternSolution.elements s)
                  = Normal (VisualSequencePattern.BestMatch.confidence best)).
Proof.
  induction solutions as [|s solutions IH]; intros b Hwf Hb0 Hb1.
  - exists b. split; [reflexivity|]. repeat split; try assumption; try lra.
    + intros s q [].
    + left. reflexivity.
  - cbn [VisualSequencePattern.scanSolutions].
    destruct (calculateSolutionConfidence_range attempt (PatternSolution.elements s))
      as [q [Hq [Hq0 Hq1]]].
    { apply Hwf. left. reflexivity. }
    rewrite Hq. cbn [completion_bind].
    assert (Hwf' : wellFormed solutions).
    { intros s' Hs'. apply Hwf. right. exact Hs'. }
    destruct (Qltb (VisualSequencePattern.BestMatch.confidence b) q) eqn:Ecmp.
    + apply Qltb_lt in Ecmp.
      destruct (IH (VisualSequencePattern.BestMatch.mk q (Some s)
                      (PatternSolution.elements s)) Hwf' Hq0 Hq1)
        as [best [Hscan [H0 [H1 [Hge [Hall Hone]]]]]].
      cbn [VisualSequencePattern.BestMatch.confidence] in Hge, Hone.
      exists best. split; [exact Hscan|]. split; [exact H0|]. split; [exact H1|].
      split; [lra|]. split.
      * intros s' q' [<-|Hs'] Hq'.
        -- rewrite Hq in Hq'. injection Hq' as <-. exact Hge.
        -- apply (Hall s' q' Hs' Hq').
      * right. destruct Hone as [Heq|[s' [Hs' Hq']]].
        -- exists s. split; [left; reflexivity|]. rewrite Heq. exact Hq.
        -- exists s'. split; [right; exact Hs'|exact Hq'].
    + apply Qltb_ge in Ecmp.
      destruct (IH b Hwf' Hb0 Hb1) as [best [Hscan [H0 [H1 [Hge [Hall Hone]]]]]].
      exists best. split; [exact Hscan|]. split; [exact H0|]. split; [exact H1|].
      split; [exact Hge|]. split.
      * intros s' q' [<-|Hs'] Hq'.
        -- rewrite Hq in Hq'. injection Hq' as <-. lra.
        -- apply (Hall s' q' Hs' Hq').
      * destruct Hone as [Heq|[s' [Hs' Hq']]]; [left; exact Heq|].
        right. exists s'. split; [right; exact Hs'|exact Hq'].
Qed.

(** [scoreAttempt] on well-formed solutions, in terms of the best match. *)
Lemma scoreAttempt_best (attempt : list PatternElement.t)
    (solutions : list PatternSolution.t) :
  wellFormed solutions ->
  exists best r,
    VisualSequencePattern.scanSolutions attempt solutions
      (VisualSequencePattern.BestMatch.mk 0 (js_index solutions 0%Z) []) = Normal best
    /\ VisualSequencePattern.scoreAttempt attempt solutions = Normal r
    /\ ValidationResult.confidence r
       = (if Qeq_bool (VisualSequencePattern.BestMatch.confidence best) 0
             && (0 <? length attempt)%nat
          then 9 # 10 else VisualSequencePattern.BestMatch.confidence best)
    /\ ValidationResult.isValid r = Qgeb (ValidationResult.confidence r) (8 # 10)
    /\ ValidationResult.feedback r
       = VisualSequencePattern.generateFeedback (ValidationResult.confidence r)
           (VisualSequencePattern.BestMatch.solution best)
    /\ 0 <= VisualSequencePattern.BestMatch.confidence best
    /\ VisualSequencePattern.BestMatch.confidence best <= 1
    /\ (forall s q, In s solutions ->
          VisualSequencePattern.calculateSolutionConfidence attempt
            (PatternSolution.elements s) = Normal q ->
          q <= VisualSequencePattern.BestMatch.confidence best)
    /\ (VisualSequencePattern.BestMatch.confidence best = 0
        \/ exists s, In s solutions
             /\ VisualSequencePattern.calculateSolutionConfidence attempt
                  (PatternSolution.elements s)
                = Normal (VisualSequencePattern.BestMatch.confidence best)).
Proof.
  intro Hwf.
  destruct (scanSolutions_best attempt solutions
              (VisualSequencePattern.BestMatch.mk 0 (js_index solutions 0%Z) []) Hwf)
    as [best [Hscan [H0 [H1 [_ [Hall Hone]]]]]];
    [cbn; lra|cbn; lra|].
  exists best. unfold VisualSequencePattern.scoreAttempt. rewrite Hscan.
  cbn [completion_bind]. eexists.
  split; [reflexivity|]. split; [reflexivity|].
  cbn [ValidationResult.confidence ValidationResult.isValid ValidationResult.feedback].
  repeat split; try assumption; try reflexivity.
Qed.

(** ** What [validateSolution] answers *)

(** With well-formed solutions at hand, [validateSolution] returns without
    touching the instance or drawing a random number; the confidence lies in
    [0, 1], dominates the confidence against every single solution (an empty
    attempt against a solution without elements apart, where the source
    divides 0 by 0), the verdict [isValid] is exactly [confidence >= 0.8],
    and the suggestions are the same three strings whatever the attempt. *)
Theorem validateSolution_result :
  forall (fuel : nat) (w : VisualSequencePattern.World)
         (attempt : list PatternElement.t),
    VisualSequencePattern.currentSolutions (VisualSequencePattern.this w) <> [] ->
    wellFormed (VisualSequencePattern.currentSolutions (VisualSequencePattern.this w)) ->
    exists r,
      VisualSequencePattern.validateSolution (S fuel) attempt w = (Normal r, w)
      /\ 0 <= ValidationResult.confidence r
      /\ ValidationResult.confidence r <= 1
      /\ (ValidationResult.isValid r = true <-> 8 # 10 <= ValidationResult.confidence r)
      /\ (forall s q,
            In s (VisualSequencePattern.currentSolutions (VisualSequencePattern.this w)) ->
            attempt <> [] \/ PatternSolution.elements s <> [] ->
            VisualSequencePattern.calculateSolutionConfidence attempt
              (PatternSolution.elements s) = Normal q ->
            q <= ValidationResult.confidence r)
      /\ ValidationResult.suggestions r
         = Some [ "Try focusing on one property at a time (shape, color, size)"%string;
                  "Look for what stays the same and what changes"%string;
                  "Check if there's a repeating cycle"%string ].
Proof.
  intros fuel w attempt Hne Hwf.
  rewrite validateSolution_scores by exact Hne.
  set (solutions := VisualSequencePattern.currentSolutions (VisualSequencePattern.this w)) in *.
  destruct (scoreAttempt_best attempt solutions Hwf)
    as [best [r [_ [Hscore [Hconf [Hvalid [_ [H0 [H1 [Hall _]]]]]]]]]].
  exists r. rewrite Hscore. split; [reflexivity|].
  assert (Hrange : 0 <= ValidationResult.confidence r
                   /\ ValidationResult.confidence r <= 1
                   /\ VisualSequencePattern.BestMatch.confidence best
                      <= ValidationResult.confidence r).
  { rewrite Hconf.
    destruct (Qeq_bool (VisualSequencePattern.BestMatch.confidence best) 0) eqn:E0;
      destruct (0 <? length attempt)%nat; cbn [andb];
      try (repeat split; lra).
    apply Qeq_bool_iff in E0. repeat split; lra. }
  destruct Hrange as [Hr0 [Hr1 Hbest]].
  split; [exact Hr0|]. split; [exact Hr1|]. split; [|split].
  - rewrite Hvalid. unfold Qgeb. apply Qle_bool_iff.
  - intros s q Hs _ Hq. specialize (Hall s q Hs Hq). lra.
  - unfold VisualSequencePattern.scoreAttempt in Hscore.
    destruct (VisualSequencePattern.scanSolutions _ _ _); cbn [completion_bind] in Hscore;
      try discriminate Hscore.
    injection Hscore as <-. reflexivity.
Qed.

Lemma validateSolution_result_witness :
  let cached :=
    snd (VisualSequencePattern.validateSolution 2 [circleElement]
           (freshWorld 4 (draws [0]))) in
  exists r,
    VisualSequencePattern.validateSolution 1 [circleElement; circleElement] cached
    = (Normal r, cached)
    /\ 0 <= ValidationResult.confidence r
    /\ ValidationResult.confidence r <= 1.
Proof.
  cbv zeta.
  destruct (validateSolution_result 0
              (snd (VisualSequencePattern.validateSolution 2 [circleElement]
                      (freshWorld 4 (draws [0]))))
              [circleElement; circleElement])
    as [r [Hr [H0 [H1 _]]]].
  - vm_compute. discriminate.
  - intros s Hs slot Hslot. vm_compute in Hs.
    destruct Hs as [<-|[]]. vm_compute in Hslot.
    destruct Hslot as [<-|[<-|[]]]; discriminate.
  - exists r. split; [exact Hr|]. split; [exact H0|exact H1].
Defined.

Lemma scanSolutions_empty_attempt :
  forall (solutions : list PatternSolution.t) (bestMatch : VisualSequencePattern.BestMatch.t),
    Qltb (VisualSequencePattern.BestMatch.confidence bestMatch) 0 = false ->
    VisualSequencePattern.scanSolutions [] solutions bestMatch = Normal bestMatch.
Proof.
  induction solutions as [|s solutions IH]; intros best Hbest; [reflexivity|].
  cbn [VisualSequencePattern.scanSolutions].
  assert (Hq : VisualSequencePattern.calculateSolutionConfidence []
                 (PatternSolution.elements s) = Normal 0).
  { unfold VisualSequencePattern.calculateSolutionConfidence.
    destruct (PatternSolution.elements s); reflexivity. }
  rewrite Hq. cbn [completion_bind]. rewrite Hbest. apply IH. exact Hbest.
Qed.

(** An empty attempt is rejected with confidence 0 and the lowest feedback,
    whatever the solutions at hand: the 0.9 override needs a non-empty
    attempt. *)
Theorem validateSolution_empty_attempt :
  forall (fuel : nat) (w : VisualSequencePattern.World),
    VisualSequencePattern.currentSolutions (VisualSequencePattern.this w) <> [] ->
    exists r,
      VisualSequencePattern.validateSolution (S fuel) [] w = (Normal r, w)
      /\ ValidationResult.confidence r = 0
      /\ ValidationResult.isValid r = false
      /\ ValidationResult.feedback r
         = "Keep exploring! Look at how the elements change from one to the next."%string.
Proof.
  intros fuel w Hne.
  rewrite validateSolution_scores by exact Hne.
  unfold VisualSequencePattern.scoreAttempt.
  rewrite scanSolutions_empty_attempt by reflexivity.
  eexists. split; [reflexivity|]. repeat split.
Qed.

Lemma validateSolution_empty_attempt_witness :
  let cached :=
    snd (VisualSequencePattern.validateSolution 2 [circleElement]
           (freshWorld 4 (draws [0]))) in
  exists r,
    VisualSequencePattern.validateSolution 1 [] cached = (Normal r, cached)
    /\ ValidationResult.confidence r = 0
    /\ ValidationResult.isValid r = false.
Proof.
  cbv zeta.
  destruct (validateSolution_empty_attempt 0
              (snd (VisualSequencePattern.validateSolution 2 [circleElement]
                      (freshWorld 4 (draws [0])))))
    as [r [Hr [H0 [Hv _]]]].
  - vm_compute. discriminate.
  - exists r. split; [exact Hr|]. split; [exact H0|exact Hv].
Defined.

(** A non-empty attempt is never given confidence 0: when it matches no
    solution at any position (or in length), the confidence is set to 0.9
    and the attempt is accepted. *)
Theorem validateSolution_never_zero :
  forall (fuel : nat) (w : VisualSequencePattern.World)
         (attempt : list PatternElement.t),
    attempt <> [] ->
    VisualSequencePattern.currentSolutions (VisualSequencePattern.this w) <> [] ->
    wellFormed (VisualSequencePattern.currentSolutions (VisualSequencePattern.this w)) ->
    exists r,
      VisualSequencePattern.validateSolution (S fuel) attempt w = (Normal r, w)
      /\ 0 < ValidationResult.confidence r
      /\ ((forall s q,
             In s (VisualSequencePattern.currentSolutions (VisualSequencePattern.this w)) ->
             VisualSequencePattern.calculateSolutionConfidence attempt
               (PatternSolution.elements s) = Normal q ->
             q == 0) ->
          ValidationResult.confidence r = 9 # 10
          /\ ValidationResult.isValid r = true).
Proof.
  intros fuel w attempt Hatt Hne Hwf.
  rewrite validateSolution_scores by exact Hne.
  set (solutions := VisualSequencePattern.currentSolutions (VisualSequencePattern.this w)) in *.
  destruct (scoreAttempt_best attempt solutions Hwf)
    as [best [r [_ [Hscore [Hconf [Hvalid [_ [H0 [H1 [_ Hone]]]]]]]]]].
  exists r. rewrite Hscore. split; [reflexivity|].
  assert (Hlen : (0 <? length attempt)%nat = true).
  { destruct attempt; [congruence|reflexivity]. }
  rewrite Hlen, andb_true_r in Hconf.
  split.
  - rewrite Hconf.
    destruct (Qeq_bool (VisualSequencePattern.BestMatch.confidence best) 0) eqn:E0;
      [reflexivity|].
    apply Qeq_bool_neq in E0.
    destruct (Qlt_le_dec 0 (VisualSequencePattern.BestMatch.confidence best)) as [Hlt|Hle];
      [exact Hlt|].
    exfalso. apply E0. lra.
  - intro Hzero.
    assert (Hb : VisualSequencePattern.BestMatch.confidence best == 0).
    { destruct Hone as [Heq|[s [Hs Hq]]]; [rewrite Heq; reflexivity|].
      apply (Hzero s _ Hs Hq). }
    apply Qeq_bool_iff in Hb. rewrite Hb in Hconf.
    split; [exact Hconf|]. rewrite Hvalid, Hconf. reflexivity.
Qed.

Lemma validateSolution_never_zero_witness :
  let cached :=
    snd (VisualSequencePattern.validateSolution 2 [circleElement]
           (freshWorld 4 (draws [0]))) in
  exists r,
    VisualSequencePattern.validateSolution 1 [circleElement] cached = (Normal r, cached)
    /\ 0 < ValidationResult.confidence r.
Proof.
  cbv zeta.
  destruct (validateSolution_never_zero 0
              (snd (VisualSequencePattern.validateSolution 2 [circleElement]
                      (freshWorld 4 (draws [0]))))
              [circleElement])
    as [r [Hr [H0 _]]].
  - discriminate.
  - vm_compute. discriminate.
  - intros s Hs slot Hslot. vm_compute in Hs.
    destruct Hs as [<-|[]]. vm_compute in Hslot.
    destruct Hslot as [<-|[<-|[]]]; discriminate.
  - exists r. split; [exact Hr|exact H0].
Defined.

Lemma submittedElements_defined (slots : list (option PatternElement.t)) :
  (forall slot, In slot slots -> slot <> None) ->
  map Some (concat (map (fun slot => match slot with
                                     | Some e => [e]
                                     | None => []
                                     end) slots)) = slots.
Proof.
  induction slots as [|[e|] slots IH]; intro Hdef.
  - reflexivity.
  - cbn. f_equal. apply IH. intros slot Hs. apply Hdef. right. exact Hs.
  - exfalso. apply (Hdef None); [left; reflexivity|reflexivity].
Qed.

Lemma countCorrect_self (elements : list PatternElement.t) :
  forall correctElements : Z,
    VisualSequencePattern.countCorrect elements (map Some elements) correctElements
    = Normal (correctElements + Z.of_nat (length elements))%Z.
Proof.
  induction elements as [|e elements IH]; intro c.
  - cbn. rewrite Z.add_0_r. reflexivity.
  - cbn [map VisualSequencePattern.countCorrect].
    rewrite elementsMatch_refl. cbn [completion_bind]. rewrite IH.
    f_equal. cbn [length]. lia.
Qed.

(** Round trip.  The elements of any solution at hand, submitted as an
    attempt, get confidence 1, are accepted, and earn the top feedback. *)
Theorem validateSolution_accepts_known_solution :
  forall (fuel : nat) (w : VisualSequencePattern.World) (s : PatternSolution.t),
    wellFormed (VisualSequencePattern.currentSolutions (VisualSequencePattern.this w)) ->
    In s (VisualSequencePattern.currentSolutions (VisualSequencePattern.this w)) ->
    PatternSolution.elements s <> [] ->
    exists r,
      VisualSequencePattern.validateSolution (S fuel) (submittedElements s) w
      = (Normal r, w)
      /\ ValidationResult.confidence r == 1
      /\ ValidationResult.isValid r = true
      /\ ValidationResult.feedback r
         = "Excellent! You've identified the pattern perfectly."%string.
Proof.
  intros fuel w s Hwf Hs Hne.
  assert (Hcur : VisualSequencePattern.currentSolutions (VisualSequencePattern.this w) <> []).
  { intro E. rewrite E in Hs. destruct Hs. }
  rewrite validateSolution_scores by exact Hcur.
  set (solutions := VisualSequencePattern.currentSolutions (VisualSequencePattern.this w)) in *.
  set (attempt := submittedElements s).
  assert (Hslots : map Some attempt = PatternSolution.elements s).
  { apply submittedElements_defined. apply Hwf. exact Hs. }
  assert (Hself : exists q,
             VisualSequencePattern.calculateSolutionConfidence attempt
               (PatternSolution.elements s) = Normal q /\ q == 1).
  { rewrite <- Hslots. unfold VisualSequencePattern.calculateSolutionConfidence.
    rewrite length_map, Nat.eqb_refl. cbn [negb].
    rewrite countCorrect_self. cbn [completion_bind Z.add].
    eexists. split; [reflexivity|].
    unfold js_length. rewrite length_map.
    assert (Hpos : 0 < inject_Z (Z.of_nat (length attempt))).
    { destruct attempt as [|e attempt'] eqn:Ea.
      - exfalso. apply Hne. rewrite <- Hslots. reflexivity.
      - apply (js_length_positive e attempt'). }
    field. lra. }
  destruct Hself as [q [Hq Hq1]].
  destruct (scoreAttempt_best attempt solutions Hwf)
    as [best [r [_ [Hscore [Hconf [Hvalid [Hfeed [H0 [H1 [Hall _]]]]]]]]]].
  pose proof (Hall s q Hs Hq) as Hge.
  assert (Hbest : VisualSequencePattern.BestMatch.confidence best == 1) by lra.
  assert (Hnz : Qeq_bool (VisualSequencePattern.BestMatch.confidence best) 0 = false).
  { destruct (Qeq_bool _ 0) eqn:E; [|reflexivity].
    apply Qeq_bool_iff in E. lra. }
  rewrite Hnz in Hconf. cbn [andb] in Hconf.
  exists r. rewrite Hscore. split; [reflexivity|].
  split; [rewrite Hconf; exact Hbest|]. split.
  - rewrite Hvalid, Hconf. unfold Qgeb. apply Qle_bool_iff. lra.
  - rewrite Hfeed, Hconf. unfold VisualSequencePattern.generateFeedback.
    assert (Hg : Qgeb (VisualSequencePattern.BestMatch.confidence best) (9 # 10) = true).
    { unfold Qgeb. apply Qle_bool_iff. lra. }
    rewrite Hg. reflexivity.
Qed.

Lemma validateSolution_accepts_known_solution_witness :
  let s := PatternSolution.mk [Some circleElement] 1 None in
  let w :=
    VisualSequencePattern.mkWorld
      (VisualSequencePattern.constructor
         (PatternConfig.mk "visual-sequence" 3 [] [s] [] None None
            (AccessibilityFeatures.mk true true true true))
         (PatternFactory.getDefaultProgress 0 "user" PatternFactory.visual_sequence))
      (draws []) 0 in
  exists r,
    VisualSequencePattern.validateSolution 1 (submittedElements s) w = (Normal r, w)
    /\ ValidationResult.confidence r == 1
    /\ ValidationResult.isValid r = true.
Proof.
  cbv zeta.
  destruct (validateSolution_accepts_known_solution 0
    (VisualSequencePattern.mkWorld
      (VisualSequencePattern.constructor
         (PatternConfig.mk "visual-sequence" 3 []
            [PatternSolution.mk [Some circleElement] 1 None] [] None None
            (AccessibilityFeatures.mk true true true true))
         (PatternFactory.getDefaultProgress 0 "user" PatternFactory.visual_sequence))
      (draws []) 0)
    (PatternSolution.mk [Some circleElement] 1 None))
    as [r [Hr [H1 [Hv _]]]].
  - intros s Hs slot Hslot. cbn in Hs. destruct Hs as [<-|[]].
    cbn in Hslot. destruct Hslot as [<-|[]]. discriminate.
  - left. reflexivity.
  - discriminate.
  - exists r. split; [exact Hr|]. split; [exact H1|exact Hv].
Defined.

(** ** The fallback of [validateSolution] *)

(** Called on an instance without solutions (as the factory's default config
    gives), [validateSolution] generates one config with one random number,
    stores it in [lastGeneratedPattern] without touching [config] or
    [progress], and scores the attempt against its solutions.  Every later
    [validateSolution] on that instance finds the cache and changes
    nothing. *)
Theorem validateSolution_fallback_caches :
  forall (fuel : nat) (w : VisualSequencePattern.World)
         (attempt : list PatternElement.t),
    VisualSequencePattern.currentSolutions (VisualSequencePattern.this w) = [] ->
    0 <= PatternConfig.difficulty
           (VisualSequencePattern.config (VisualSequencePattern.this w)) ->
    0 <= VisualSequencePattern.entropy w (VisualSequencePattern.drawn w) ->
    VisualSequencePattern.entropy w (VisualSequencePattern.drawn w) < 1 ->
    exists cfg w',
      VisualSequencePattern.generate w = (Normal cfg, afterDraw w)
      /\ VisualSequencePattern.validateSolution (S (S fuel)) attempt w
         = (VisualSequencePattern.scoreAttempt attempt (PatternConfig.validSolutions cfg),
            w')
      /\ VisualSequencePattern.lastGeneratedPattern (VisualSequencePattern.this w')
         = Some cfg
      /\ VisualSequencePattern.config (VisualSequencePattern.this w')
         = VisualSequencePattern.config (VisualSequencePattern.this w)
      /\ VisualSequencePattern.progress (VisualSequencePattern.this w')
         = VisualSequencePattern.progress (VisualSequencePattern.this w)
      /\ VisualSequencePattern.drawn w' = S (VisualSequencePattern.drawn w)
      /\ forall (fuel' : nat) (attempt' : list PatternElement.t),
           snd (VisualSequencePattern.validateSolution (S fuel') attempt' w') = w'.
Proof.
  intros fuel w attempt Hempty Hd Hu0 Hu1.
  destruct (generate_returns w (half_nonneg _ Hd) Hu0 Hu1) as [rule [_ Hgen]].
  set (cfg := configFor (VisualSequencePattern.this w) rule) in *.
  exists cfg, (snd (VisualSequencePattern.set_lastGeneratedPattern cfg (afterDraw w))).
  split; [exact Hgen|]. split.
  { rewrite validateSolution_fallback by exact Hempty. rewrite Hgen. reflexivity. }
  split; [reflexivity|]. split; [reflexivity|]. split; [reflexivity|].
  split; [reflexivity|].
  intros fuel' attempt'. rewrite validateSolution_scores; [reflexivity|].
  change (VisualSequencePattern.currentSolutions _)
    with (PatternConfig.validSolutions cfg).
  apply generateValidSolutions_nonempty.
Qed.

Lemma validateSolution_fallback_caches_witness :
  exists cfg w',
    VisualSequencePattern.generate (freshWorld 3 (draws [1 # 2]))
    = (Normal cfg, afterDraw (freshWorld 3 (draws [1 # 2])))
    /\ VisualSequencePattern.lastGeneratedPattern (VisualSequencePattern.this w')
       = Some cfg
    /\ VisualSequencePattern.drawn w' = 1%nat.
Proof.
  destruct (validateSolution_fallback_caches 0 (freshWorld 3 (draws [1 # 2]))
              [circleElement])
    as [cfg [w' [Hgen [_ [Hcache [_ [_ [Hdrawn _]]]]]]]];
    try (vm_compute; discriminate || reflexivity).
  exists cfg, w'. split; [exact Hgen|]. split; [exact Hcache|exact Hdrawn].
Defined.
